(** * Directional DCA controllers and the cash-out strategy script

    A shallow embedding of
      - [bots/scripts/v2_with_controllers.py]
        (class [GenericV2StrategyWithCashOut]),
      - [bots/controllers/directional_trading/bollinger_dca.py],
      - [bots/controllers/directional_trading/bollinger_macd_dca.py],
      - [bots/controllers/directional_trading/macd_mt_dca.py],
    followed by the properties of the portfolio valuation, the drawdown
    trigger, the cash-out state machine, the DCA ladder builder, the
    executor refresh rule, the look-back computation and the signal
    engines. *)

From Stdlib Require Import ZArith QArith Qabs Qpower Lia Lqa Bool String Ascii List Sorted.
From Stdlib Require Import Floats.
Import ListNotations.

Local Open Scope Z_scope.

(* ================================================================== *)
(** * Python's [decimal.Decimal]                                       *)
(* ================================================================== *)

(** Finite decimals in the default context of the [decimal] module:
    precision 28, rounding [ROUND_HALF_EVEN].  A value is a signed
    coefficient and an exponent; every arithmetic operation computes the
    exact result and then rounds it to the context precision ([_fix],
    Python's [Decimal._fix]).  The exponent limits of the context
    ([Emax], [Emin] = +-999999) and the sign of zero are not modelled. *)
Module Decimal.

Record t : Set := Dec { coef : Z; expo : Z }.

Definition prec : Z := 28.

(** [len(str(n))] for a natural number [n]. *)
Fixpoint digits_fuel (fuel : nat) (n : Z) : Z :=
  match fuel with
  | O => 1
  | S f => if n <? 10 then 1 else 1 + digits_fuel f (n / 10)
  end.

Definition ndigits (n : Z) : Z := digits_fuel (Z.to_nat (Z.log2 n)) n.

(** [_round_half_even]: drop the last [k] digits of the magnitude [n]. *)
Definition round_half_even (n k : Z) : Z :=
  let p := 10 ^ k in
  let q := n / p in
  let r := n mod p in
  if (p <? 2 * r) || ((2 * r =? p) && Z.odd q) then q + 1 else q.

(** [Decimal._fix]: round to the context precision. *)
Definition _fix (d : t) : t :=
  let n := Z.abs (coef d) in
  let len := ndigits n in
  if prec <? len then
    let k := len - prec in
    let m := round_half_even n k in
    if prec <? ndigits m
    then Dec (Z.sgn (coef d) * (m / 10)) (expo d + k + 1)
    else Dec (Z.sgn (coef d) * m) (expo d + k)
  else d.

(** The coefficient of [x] written at the exponent [e <= expo x]. *)
Definition align (x : t) (e : Z) : Z := coef x * 10 ^ (expo x - e).

Definition of_Z (n : Z) : t := Dec n 0.

(** [Decimal()] is [Decimal('0')]. *)
Definition zero : t := Dec 0 0.

Definition neg (x : t) : t := Dec (- coef x) (expo x).

(** [x + y] *)
Definition add (x y : t) : t :=
  let e := Z.min (expo x) (expo y) in
  _fix (Dec (align x e + align y e) e).

(** [x - y] is [x.__add__(y.copy_negate())]. *)
Definition sub (x y : t) : t := add x (neg y).

(** [x * y] *)
Definition mul (x y : t) : t :=
  _fix (Dec (coef x * coef y) (expo x + expo y)).

(** The loop of [__truediv__] that brings an exact quotient as close
    to the ideal exponent as possible; it runs at most
    [ideal - e] times. *)
Fixpoint strip_zeros (fuel : nat) (c e ideal : Z) : Z * Z :=
  match fuel with
  | O => (c, e)
  | S f =>
      if (e <? ideal) && (c mod 10 =? 0)
      then strip_zeros f (c / 10) (e + 1) ideal
      else (c, e)
  end.

(** [x / y]; [None] stands for the [DivisionByZero] /
    [InvalidOperation] exception of a zero divisor. *)
Definition div (x y : t) : option t :=
  if coef y =? 0 then None
  else if coef x =? 0 then Some (_fix (Dec 0 (expo x - expo y)))
  else
    let n1 := Z.abs (coef x) in
    let n2 := Z.abs (coef y) in
    let sg := Z.sgn (coef x) * Z.sgn (coef y) in
    let shift := ndigits n2 - ndigits n1 + prec + 1 in
    let e := expo x - expo y - shift in
    let num := if 0 <=? shift then n1 * 10 ^ shift else n1 in
    let den := if 0 <=? shift then n2 else n2 * 10 ^ (- shift) in
    let q := num / den in
    let r := num mod den in
    let '(c, e') :=
      if r =? 0
      then strip_zeros (Z.to_nat (expo x - expo y - e)) q e (expo x - expo y)
      else (if q mod 5 =? 0 then q + 1 else q, e) in
    Some (_fix (Dec (sg * c) e')).

(** Comparison is exact (no rounding). *)
Definition compare (x y : t) : comparison :=
  let e := Z.min (expo x) (expo y) in
  Z.compare (align x e) (align y e).

Definition ltb (x y : t) : bool :=
  match compare x y with Lt => true | _ => false end.

Definition eqb (x y : t) : bool :=
  match compare x y with Eq => true | _ => false end.

(** The rational number a decimal denotes. *)
Definition to_Q (d : t) : Q := (inject_Z (coef d) * 10 ^ expo d)%Q.

(** The rational number a finite binary float denotes. *)
Definition SF_to_Q (s : bool) (m : positive) (e : Z) : Q :=
  ((if s then - (1) else 1) * inject_Z (Z.pos m) * 2 ^ e)%Q.

(** [d >= f] for a [float] [f]: Python converts the float exactly
    ([Decimal.from_float]) and compares; an ordering comparison with
    NaN raises [InvalidOperation] ([None]). *)
Definition ge_float (d : t) (f : float) : option bool :=
  match Prim2SF f with
  | S754_nan => None
  | S754_infinity s => Some s
  | S754_zero _ => Some (Qle_bool 0 (to_Q d))
  | S754_finite s m e => Some (Qle_bool (SF_to_Q s m e) (to_Q d))
  end.

(** [sum(l)]: Python starts from the integer [0] and adds from the
    left; [0 + x] is [Decimal.__radd__]. *)
Definition sum (l : list t) : t := fold_left add l (of_Z 0).

End Decimal.

Declare Scope dec_scope.
Delimit Scope dec_scope with dec.
Notation "x + y" := (Decimal.add x y) : dec_scope.
Notation "x - y" := (Decimal.sub x y) : dec_scope.
Notation "x * y" := (Decimal.mul x y) : dec_scope.


(* ================================================================== *)
(** * Data shared by the three controllers                             *)
(* ================================================================== *)

(** [hummingbot.core.data_type.common.TradeType] *)
Inductive TradeType : Set := BUY | SELL | RANGE.

(** [hummingbot.strategy_v2.executors.dca_executor.data_types.DCAMode] *)
Inductive DCAMode : Set := MAKER | TAKER.

(** [hummingbot.strategy_v2.models.base.RunnableStatus] *)
Inductive RunnableStatus : Set :=
  NOT_STARTED | RUNNING | SHUTTING_DOWN | TERMINATED.

Definition RunnableStatus_eqb (a b : RunnableStatus) : bool :=
  match a, b with
  | NOT_STARTED, NOT_STARTED | RUNNING, RUNNING
  | SHUTTING_DOWN, SHUTTING_DOWN | TERMINATED, TERMINATED => true
  | _, _ => false
  end.

(** [StopExecutorAction(controller_id=..., executor_id=...)] *)
Record StopExecutorAction : Set := mkStop {
  stop_controller_id : string;
  stop_executor_id : string
}.

(** The fields of [ExecutorInfo] that the repository reads. *)
Module Executor.
Record t : Set := mk {
  id : string;
  controller_id : string;
  timestamp : float;
  status : RunnableStatus;
  is_active : bool;
  is_trading : bool
}.
End Executor.
Definition ExecutorInfo : Set := Executor.t.

(** [filter_executors(executors, filter_func)] of the base classes:
    the executors that satisfy [filter_func], in order. *)
Definition filter_executors (executors : list ExecutorInfo)
    (filter_func : ExecutorInfo -> bool) : list ExecutorInfo :=
  filter filter_func executors.

(** The configuration fields the three controller configurations share
    (the DCA block and what [DirectionalTradingControllerConfigBase]
    contributes to the executor configuration). *)
Record DCAControllerConfig : Set := mkDCAConfig {
  config_id : string;
  connector_name : string;
  trading_pair : string;
  dca_spreads : list Decimal.t;
  dca_amounts : list Decimal.t;
  time_limit : Z;
  stop_loss : Decimal.t;
  take_profit : option Decimal.t;
  trailing_stop : option (Decimal.t * Decimal.t);
  executor_refresh_time : option float;
  executor_activation_bounds : option (list Decimal.t);
  leverage : Z
}.

(** [DCAExecutorConfig], the plan handed to the orchestrator. *)
Record DCAExecutorConfig : Set := mkPlan {
  plan_timestamp : float;
  plan_connector_name : string;
  plan_trading_pair : string;
  mode : DCAMode;
  side : TradeType;
  prices : list Decimal.t;
  amounts_quote : list Decimal.t;
  plan_time_limit : Z;
  plan_stop_loss : Decimal.t;
  plan_take_profit : option Decimal.t;
  plan_trailing_stop : option (Decimal.t * Decimal.t);
  activation_bounds : option (list Decimal.t);
  plan_leverage : Z
}.

(* ================================================================== *)
(** * The DCA ladder builder and the refresh rule                      *)
(* ================================================================== *)

(** The part of a controller object that [__init__] sets up and that
    [get_executor_config] and [executors_to_refresh] read.  The three
    controller classes have these members word for word; they differ in
    the [DCAMode] of the plan only. *)
Module Ladder.

Record Controller : Set := mkController {
  config : DCAControllerConfig;
  dca_amounts_pct : list Decimal.t;
  spreads : list Decimal.t
}.

(** [[f(x) for x in l]] where [f] may raise. *)
Fixpoint map_raising {A B : Type} (f : A -> option B) (l : list A)
  : option (list B) :=
  match l with
  | [] => Some []
  | x :: r =>
      match f x with
      | None => None
      | Some y =>
          match map_raising f r with
          | None => None
          | Some ys => Some (y :: ys)
          end
      end
  end.

(** The DCA lines of [__init__]:
    [self.dca_amounts_pct = [Decimal(amount) / sum(self.config.dca_amounts)
                             for amount in self.config.dca_amounts]]
    and [self.spreads = self.config.dca_spreads].
    [None]: the division raised. *)
Definition __init__ (cfg : DCAControllerConfig) : option Controller :=
  match map_raising
          (fun amount => Decimal.div amount (Decimal.sum (dca_amounts cfg)))
          (dca_amounts cfg) with
  | None => None
  | Some pct => Some (mkController cfg pct (dca_spreads cfg))
  end.

Section Builder.
(** [self.market_data_provider.time()] *)
Variable now : float.
(** [DCAMode.MAKER] in [bollinger_dca], [DCAMode.TAKER] in
    [bollinger_macd_dca] and [macd_mt_dca]. *)
Variable dca_mode : DCAMode.
Variable self : Controller.

Definition get_executor_config (trade_type : TradeType)
    (price amount : Decimal.t) : DCAExecutorConfig :=
  let prices :=
    match trade_type with
    | BUY =>
        map (fun spread => (price * (Decimal.of_Z 1 - spread))%dec)
            (spreads self)
    | _ =>
        map (fun spread => (price * (spread + Decimal.of_Z 1))%dec)
            (spreads self)
    end in
  let amounts := map (fun pct => (amount * pct)%dec) (dca_amounts_pct self) in
  let amounts_quote :=
    map (fun ap => (fst ap * snd ap)%dec) (combine amounts prices) in
  {| plan_timestamp := now;
     plan_connector_name := connector_name (config self);
     plan_trading_pair := trading_pair (config self);
     mode := dca_mode;
     side := trade_type;
     prices := prices;
     amounts_quote := amounts_quote;
     plan_time_limit := time_limit (config self);
     plan_stop_loss := stop_loss (config self);
     plan_take_profit := take_profit (config self);
     plan_trailing_stop := trailing_stop (config self);
     activation_bounds := executor_activation_bounds (config self);
     plan_leverage := leverage (config self) |}.

(** [order_level_refresh_condition]:
    [time() - executor.timestamp > executor_refresh_time * 1000];
    [None] is the [TypeError] of [None * 1000]. *)
Definition order_level_refresh_condition (executor : ExecutorInfo)
  : option bool :=
  match executor_refresh_time (config self) with
  | None => None
  | Some refresh =>
      Some (PrimFloat.ltb (PrimFloat.mul refresh 1000%float)
                          (PrimFloat.sub now (Executor.timestamp executor)))
  end.

(** The [filter_func] of [executors_to_refresh]:
    [not x.is_trading and x.is_active and
     self.order_level_refresh_condition(x)], evaluated left to right. *)
Definition refresh_filter (x : ExecutorInfo) : option bool :=
  if negb (Executor.is_trading x) then
    if Executor.is_active x then order_level_refresh_condition x else Some false
  else Some false.

Fixpoint filter_raising {A : Type} (f : A -> option bool) (l : list A)
  : option (list A) :=
  match l with
  | [] => Some []
  | x :: r =>
      match f x with
      | None => None
      | Some b =>
          match filter_raising f r with
          | None => None
          | Some ys => Some (if b then x :: ys else ys)
          end
      end
  end.

(** [executors_to_refresh], over [self.executors_info]. *)
Definition executors_to_refresh (executors_info : list ExecutorInfo)
  : option (list StopExecutorAction) :=
  match filter_raising refresh_filter executors_info with
  | None => None
  | Some executors_to_refresh =>
      Some (map (fun executor =>
                   mkStop (config_id (config self)) (Executor.id executor))
                executors_to_refresh)
  end.

End Builder.

End Ladder.


(* ================================================================== *)
(** * Python dictionaries                                              *)
(* ================================================================== *)

(** A [dict] with string keys, in insertion order: [items()] is the
    list itself; assigning to a key that is present keeps its place,
    a new key goes to the end. *)
Module PyDict.

Definition t (V : Type) : Type := list (string * V).

Fixpoint get {V : Type} (d : t V) (k : string) : option V :=
  match d with
  | [] => None
  | (k', v) :: r => if String.eqb k' k then Some v else get r k
  end.

(** [d[k] = v] *)
Fixpoint set {V : Type} (d : t V) (k : string) (v : V) : t V :=
  match d with
  | [] => [(k, v)]
  | (k', v') :: r =>
      if String.eqb k' k then (k', v) :: r else (k', v') :: set r k v
  end.

(** [d[k]] on a [defaultdict]: a missing key is inserted with the
    default and the default is returned. *)
Definition getitem_default {V : Type} (dflt : V) (d : t V) (k : string)
  : V * t V :=
  match get d k with
  | Some v => (v, d)
  | None => (dflt, set d k dflt)
  end.

(** [d.get(k, dflt)] *)
Definition get_or {V : Type} (dflt : V) (d : t V) (k : string) : V :=
  match get d k with Some v => v | None => dflt end.

Definition keys {V : Type} (d : t V) : list string := map fst d.
Definition values {V : Type} (d : t V) : list V := map snd d.

End PyDict.

(* ================================================================== *)
(** * The strategy script [v2_with_controllers.py]                     *)
(* ================================================================== *)

(** What the script reads and calls on a controller object: its
    [status], [config.manual_kill_switch], [config.trading_pair], and
    the methods [stop()] and [start()] of hummingbot's [ControllerBase],
    which set the status to [TERMINATED] and to [RUNNING]. *)
Module Ctrl.
Record t : Set := mk {
  status : RunnableStatus;
  manual_kill_switch : bool;
  trading_pair : string
}.
Definition stop (c : t) : t :=
  mk TERMINATED (manual_kill_switch c) (trading_pair c).
Definition start (c : t) : t :=
  mk RUNNING (manual_kill_switch c) (trading_pair c).
End Ctrl.

(** The calls the script makes on its collaborators, in order. *)
Inductive Call : Set :=
| controller_stop (controller_id : string)
| controller_start (controller_id : string)
| execute_actions (actions : list StopExecutorAction)
| application_stop.

Module Strategy.

(** The object state of [GenericV2StrategyWithCashOut] together with
    what it reads from its collaborators during one tick
    ([global_pnl_quote c] is
    [executor_orchestrator.generate_performance_report(c).global_pnl_quote])
    and the calls it has made ([calls], oldest first). *)
Record t : Type := mk {
  max_portfolio_loss : float;
  initial_portfolio_value : PyDict.t Decimal.t;
  max_portfolio_value : PyDict.t Decimal.t;
  cash_out_time : option float;
  cashing_out : bool;
  current_timestamp : float;
  controllers : PyDict.t Ctrl.t;
  executors_info : PyDict.t (list ExecutorInfo);
  global_pnl_quote : string -> Decimal.t;
  calls : list Call
}.

Definition with_max_portfolio_value (self : t) (m : PyDict.t Decimal.t) : t :=
  mk (max_portfolio_loss self) (initial_portfolio_value self) m
     (cash_out_time self) (cashing_out self) (current_timestamp self)
     (controllers self) (executors_info self) (global_pnl_quote self)
     (calls self).

Definition with_cashing_out (self : t) (b : bool) : t :=
  mk (max_portfolio_loss self) (initial_portfolio_value self)
     (max_portfolio_value self) (cash_out_time self) b
     (current_timestamp self) (controllers self) (executors_info self)
     (global_pnl_quote self) (calls self).

(** The controller objects after a loop over them, and the calls the
    loop made. *)
Definition with_controllers (self : t) (cs : PyDict.t Ctrl.t)
    (made : list Call) : t :=
  mk (max_portfolio_loss self) (initial_portfolio_value self)
     (max_portfolio_value self) (cash_out_time self) (cashing_out self)
     (current_timestamp self) cs (executors_info self)
     (global_pnl_quote self) (calls self ++ made).

Definition call (self : t) (c : Call) : t :=
  with_controllers self (controllers self) [c].

(** [trading_pair.split('-')[-1]] *)
Fixpoint last_segment (s acc : string) : string :=
  match s with
  | EmptyString => acc
  | String c r =>
      if Ascii.eqb c "-"%char then last_segment r EmptyString
      else last_segment r (acc ++ String c EmptyString)
  end.

Definition get_quote_asset (trading_pair : string) : string :=
  last_segment trading_pair EmptyString.

(** [_get_pnl_by_quote_asset] *)
Definition _get_pnl_by_quote_asset (self : t) : PyDict.t Decimal.t :=
  fold_left
    (fun pnl_dict (item : string * Ctrl.t) =>
       let '(controller_id, value) := item in
       let key := get_quote_asset (Ctrl.trading_pair value) in
       let '(old, pnl_dict) :=
         PyDict.getitem_default Decimal.zero pnl_dict key in
       PyDict.set pnl_dict key (old + global_pnl_quote self controller_id)%dec)
    (controllers self) [].

(** [_get_current_portfolio_value]; the key written is the string
    literal ['asset'], as in the source. *)
Definition _get_current_portfolio_value (self : t) : PyDict.t Decimal.t :=
  fst
    (fold_left
       (fun (acc : PyDict.t Decimal.t * PyDict.t Decimal.t)
            (item : string * Decimal.t) =>
          let '(current_port, pnl_dict) := acc in
          let '(asset, value) := item in
          let '(pnl, pnl_dict) :=
            PyDict.getitem_default Decimal.zero pnl_dict asset in
          (PyDict.set current_port "asset" (value + pnl)%dec, pnl_dict))
       (initial_portfolio_value self)
       ([], _get_pnl_by_quote_asset self)).

(** [_set_initial_portfolio_value], with [balances] for the account
    balances of the connector and [markets] for [self.markets] (each
    set of trading pairs in the order [list()] gives): the balance of
    the quote asset of the first pair of every market, keyed by that
    quote asset.  [None]: a market without a pair. *)
Definition _set_initial_portfolio_value (balances : PyDict.t Decimal.t)
    (markets : PyDict.t (list string)) (self : t) : option t :=
  let initial_portfolio :=
    fold_left
      (fun (acc : option (PyDict.t Decimal.t)) (item : string * list string) =>
         match acc, snd item with
         | Some initial_portfolio, first :: _ =>
             let quote_asset := get_quote_asset first in
             Some (PyDict.set initial_portfolio quote_asset
                     (PyDict.get_or (Decimal.of_Z 0) balances quote_asset))
         | _, _ => None
         end)
      markets (Some []) in
  match initial_portfolio with
  | Some initial_portfolio =>
      Some (mk (max_portfolio_loss self) initial_portfolio
               (max_portfolio_value self) (cash_out_time self)
               (cashing_out self) (current_timestamp self) (controllers self)
               (executors_info self) (global_pnl_quote self) (calls self))
  | None => None
  end.

(** [update_max_portfolio_value] *)
Definition update_max_portfolio_value (self : t) : t :=
  let current_portfolio := _get_current_portfolio_value self in
  match max_portfolio_value self with
  | [] => with_max_portfolio_value self current_portfolio
  | items =>
      with_max_portfolio_value self
        (snd
           (fold_left
              (fun (acc : PyDict.t Decimal.t * PyDict.t Decimal.t)
                   (item : string * Decimal.t) =>
                 let '(current_portfolio, maxd) := acc in
                 let '(asset, value) := item in
                 let '(cur, current_portfolio) :=
                   PyDict.getitem_default Decimal.zero current_portfolio asset in
                 if Decimal.ltb value cur
                 then (current_portfolio, PyDict.set maxd asset cur)
                 else (current_portfolio, maxd))
              items (current_portfolio, items)))
  end.

(** [get_executors_by_controller] of [StrategyV2Base]:
    [self.executors_info.get(controller_id, [])]. *)
Definition get_executors_by_controller (self : t) (controller_id : string)
  : list ExecutorInfo :=
  PyDict.get_or [] (executors_info self) controller_id.

(** [get_all_executors] of [StrategyV2Base]: the executors of every
    controller, in the order of the dictionary. *)
Definition get_all_executors (self : t) : list ExecutorInfo :=
  concat (PyDict.values (executors_info self)).

(** [[StopExecutorAction(executor_id=executor.id,
                         controller_id=executor.controller_id)
      for executor in executors]] *)
Definition stop_actions (executors : list ExecutorInfo)
  : list StopExecutorAction :=
  map (fun executor =>
         mkStop (Executor.controller_id executor) (Executor.id executor))
      executors.

(** [controller.stop()] followed by the stop requests for the
    executors of [get_executors_by_controller(controller_id)]: the
    statements that [stop_by_portfolio_loss] and
    [check_manual_cash_out] both run on a controller. *)
Definition stop_with_executors (self : t) (controller_id : string)
    (controller : Ctrl.t) : Ctrl.t * list Call :=
  (Ctrl.stop controller,
   [controller_stop controller_id;
    execute_actions
      (stop_actions (get_executors_by_controller self controller_id))]).

(** One round of a [for controller_id, controller in
    self.controllers.items()] loop whose body changes that controller
    only: the controllers after the loop and the calls made, in
    order. *)
Definition for_controllers (self : t)
    (body : string -> Ctrl.t -> Ctrl.t * list Call) : t :=
  let rounds :=
    map (fun item : string * Ctrl.t =>
           let '(c, made) := body (fst item) (snd item) in
           ((fst item, c), made))
        (controllers self) in
  with_controllers self (map fst rounds) (concat (map snd rounds)).

(** [stop_by_portfolio_loss] *)
Definition stop_by_portfolio_loss (self : t) : t :=
  for_controllers self
    (fun controller_id controller =>
       if RunnableStatus_eqb (Ctrl.status controller) RUNNING
       then stop_with_executors self controller_id controller
       else (controller, [])).

(** The loop of [control_portfolio_loss] over
    [current_portfolio.items()], with its [break].  [None]: the
    comparison raised. *)
Fixpoint portfolio_loss_loop (self : t) (items : list (string * Decimal.t))
  : option t :=
  match items with
  | [] => Some self
  | (asset, value) :: rest =>
      let '(max_portfolio_asset, maxd) :=
        PyDict.getitem_default Decimal.zero (max_portfolio_value self) asset in
      let self := with_max_portfolio_value self maxd in
      match Decimal.ge_float (max_portfolio_asset - value)%dec
                             (max_portfolio_loss self) with
      | None => None
      | Some true => Some (stop_by_portfolio_loss self)
      | Some false => portfolio_loss_loop self rest
      end
  end.

(** [control_portfolio_loss] *)
Definition control_portfolio_loss (self : t) : option t :=
  let self := update_max_portfolio_value self in
  let current_portfolio := _get_current_portfolio_value self in
  portfolio_loss_loop self current_portfolio.

(** [evaluate_cash_out_time] *)
Definition evaluate_cash_out_time (self : t) : t :=
  match cash_out_time self with
  | Some cash_out_time =>
      if negb (PrimFloat.eqb cash_out_time 0)
         && PrimFloat.leb cash_out_time (current_timestamp self)
         && negb (cashing_out self)
      then
        with_cashing_out
          (for_controllers self
             (fun controller_id controller =>
                if RunnableStatus_eqb (Ctrl.status controller) RUNNING
                then (Ctrl.stop controller, [controller_stop controller_id])
                else (controller, [])))
          true
      else self
  | None => self
  end.

(** [check_manual_cash_out] *)
Definition check_manual_cash_out (self : t) : t :=
  for_controllers self
    (fun controller_id controller =>
       let '(controller, made1) :=
         if Ctrl.manual_kill_switch controller
            && RunnableStatus_eqb (Ctrl.status controller) RUNNING
         then stop_with_executors self controller_id controller
         else (controller, []) in
       let '(controller, made2) :=
         if negb (Ctrl.manual_kill_switch controller)
            && RunnableStatus_eqb (Ctrl.status controller) TERMINATED
         then (Ctrl.start controller, [controller_start controller_id])
         else (controller, []) in
       (controller, made1 ++ made2)).

(** [check_executors_status] *)
Definition check_executors_status (self : t) : t :=
  let active_executors :=
    filter_executors (get_all_executors self)
      (fun executor => RunnableStatus_eqb (Executor.status executor) RUNNING) in
  match active_executors with
  | [] => call self application_stop
  | _ =>
      let non_trading_executors :=
        filter_executors active_executors
          (fun executor => negb (Executor.is_trading executor)) in
      call self (execute_actions (stop_actions non_trading_executors))
  end.

(** [control_cash_out] *)
Definition control_cash_out (self : t) : t :=
  let self := evaluate_cash_out_time self in
  if cashing_out self
  then check_executors_status self
  else check_manual_cash_out self.

(** [on_tick], after [super().on_tick()]. *)
Definition on_tick (self : t) : option t :=
  let after_loss :=
    if negb (PrimFloat.eqb (max_portfolio_loss self) 0)
    then control_portfolio_loss self
    else Some self in
  match after_loss with
  | None => None
  | Some self => Some (control_cash_out self)
  end.

End Strategy.


(* ================================================================== *)
(** * The signal engines and the look-back computation                 *)
(* ================================================================== *)

(** The pandas operations the controllers use, on columns as lists
    (row [i] of a frame is position [i] of each of its columns). *)
Module Frame.

(** [df.loc[cond, col] = v]: the rows where [cond] holds get [v]. *)
Definition loc_assign (cond : list bool) (col : list Z) (v : Z) : list Z :=
  map (fun cx : bool * Z => if fst cx then v else snd cx) (combine cond col).

(** [df[col] = 0] *)
Definition constant_column {A : Type} (rows : list A) (v : Z) : list Z :=
  map (fun _ => v) rows.

(** [series.iloc[-1]]; [None] is the [IndexError] of an empty frame. *)
Fixpoint iloc_last {A : Type} (col : list A) : option A :=
  match col with
  | [] => None
  | [x] => Some x
  | _ :: r => iloc_last r
  end.

(** The scan of [merge_asof(..., direction='backward')] for one left
    key [t] over the right rows (key, value), oldest first: the
    position moves on while the right key is [<= t]; the row before
    the position is attached, none (NaN) when the position did not
    move. *)
Fixpoint asof_backward (right : list (Z * Z)) (t : Z) (found : option Z)
  : option Z :=
  match right with
  | [] => found
  | (t', v) :: r =>
      if t' <=? t then asof_backward r t (Some v) else found
  end.

(** [pd.merge_asof(left, right, on='time', direction='backward')] for
    a left frame (time, signal) and a right frame (time, signal), both
    sorted by time as [merge_asof] requires: every left row with the
    attached right signal.  A time is the integer of the [datetime64]
    value that [pd.to_datetime] makes of the candle's timestamp. *)
Definition merge_asof (left right : list (Z * Z))
  : list (Z * Z * option Z) :=
  map (fun row : Z * Z => (row, asof_backward right (fst row) None)) left.

(** [df_merged.apply(lambda row: row[a] if row[a] == row[b] else 0,
    axis=1)]; NaN equals nothing. *)
Definition agree (row : Z * Z * option Z) : Z :=
  match snd row with
  | Some b => if snd (fst row) =? b then snd (fst row) else 0
  | None => 0
  end.

(** From the two signal columns to the [signal] column of
    [df_merged]. *)
Definition fused_signal (left right : list (Z * Z)) : list Z :=
  map agree (merge_asof left right).

End Frame.

(** The two signal rules. *)
Module Indicator.

(** [bbp < long_threshold], [bbp > short_threshold] and the three
    assignments to the signal column. *)
Definition bollinger_signal (long_threshold short_threshold : float)
    (bbp : list float) : list Z :=
  let long_condition := map (fun v => PrimFloat.ltb v long_threshold) bbp in
  let short_condition := map (fun v => PrimFloat.ltb short_threshold v) bbp in
  let signal := Frame.constant_column bbp 0 in
  let signal := Frame.loc_assign long_condition signal 1 in
  Frame.loc_assign short_condition signal (-1).

(** The MACD rule on rows (MACDh, MACD): with [trend_following] the
    sign of the histogram, otherwise (mean reversion) the histogram
    against the sign of the MACD line. *)
Definition macd_signal (trend_following : bool)
    (rows : list (float * float)) : list Z :=
  let long_condition :=
    map (fun r : float * float =>
           if trend_following then PrimFloat.ltb 0 (fst r)
           else PrimFloat.ltb 0 (fst r) && PrimFloat.ltb (snd r) 0) rows in
  let short_condition :=
    map (fun r : float * float =>
           if trend_following then PrimFloat.ltb (fst r) 0
           else PrimFloat.ltb (fst r) 0 && PrimFloat.ltb 0 (snd r)) rows in
  let signal := Frame.constant_column rows 0 in
  let signal := Frame.loc_assign long_condition signal 1 in
  Frame.loc_assign short_condition signal (-1).

(** The dictionary [interval_durations] of [get_candle_max_records]. *)
Definition interval_durations : PyDict.t Z :=
  [("1s", 1); ("1m", 60); ("3m", 3 * 60); ("5m", 5 * 60);
   ("15m", 15 * 60); ("30m", 30 * 60); ("1h", 60 * 60);
   ("4h", 4 * 60 * 60); ("1d", 24 * 60 * 60)]%string.

End Indicator.

(** [bollinger_dca.py] *)
Module BollingerDCA.

Record Config : Set := mkConfig {
  dca : DCAControllerConfig;
  interval : string;
  bb_length : Z;
  bb_std : float;
  bb_long_threshold : float;
  bb_short_threshold : float
}.

(** [self.max_records = self.config.bb_length] *)
Definition max_records (cfg : Config) : Z := bb_length cfg.

Definition __init__ (cfg : Config) : option Ladder.Controller :=
  Ladder.__init__ (dca cfg).

(** The [signal] column that [update_processed_data] adds to the
    candles frame, from its [BBP] column. *)
Definition signal_column (cfg : Config) (bbp : list float) : list Z :=
  Indicator.bollinger_signal (bb_long_threshold cfg) (bb_short_threshold cfg) bbp.

(** [update_processed_data]: [processed_data["signal"]]. *)
Definition update_processed_data (cfg : Config) (bbp : list float)
  : option Z :=
  Frame.iloc_last (signal_column cfg bbp).

Definition get_executor_config (now : float) :=
  Ladder.get_executor_config now MAKER.

End BollingerDCA.

(** [bollinger_macd_dca.py] *)
Module BollingerMacdDCA.

Record Config : Set := mkConfig {
  dca : DCAControllerConfig;
  bb_interval : string;
  bb_length : Z;
  bb_std : float;
  bb_long_threshold : float;
  bb_short_threshold : float;
  macd_interval : string;
  macd_fast : Z;
  macd_slow : Z;
  macd_signal : Z
}.

(** [get_candle_max_records]; [None] is the [KeyError] of an interval
    that is not in [interval_durations]. *)
Definition get_candle_max_records (cfg : Config) : option (list Z) :=
  match PyDict.get Indicator.interval_durations (macd_interval cfg),
        PyDict.get Indicator.interval_durations (bb_interval cfg) with
  | Some macd_duration, Some bb_duration =>
      let total_macd_seconds := macd_duration * (macd_slow cfg + macd_signal cfg) in
      let total_bb_seconds := bb_duration * bb_length cfg in
      let max_seconds := Z.max total_macd_seconds total_bb_seconds in
      let max_records_macd := max_seconds / macd_duration in
      let max_records_bb := max_seconds / bb_duration in
      Some [max_records_macd; max_records_bb]
  | _, _ => None
  end.

(** [__init__]: the weights, then [max_records_list]; [None] when
    either raises. *)
Definition __init__ (cfg : Config) : option (Ladder.Controller * list Z) :=
  match Ladder.__init__ (dca cfg) with
  | None => None
  | Some self =>
      match get_candle_max_records cfg with
      | None => None
      | Some max_records_list => Some (self, max_records_list)
      end
  end.

(** [update_processed_data] on the rows (time, MACDh, MACD) of the
    MACD frame and (time, BBP) of the Bollinger frame: the [signal]
    column of [df_merged]. *)
Definition signal_column (cfg : Config)
    (df_macd : list (Z * (float * float))) (df : list (Z * float))
  : list Z :=
  let signal_macd := Indicator.macd_signal false (map snd df_macd) in
  let signal_bb :=
    Indicator.bollinger_signal (bb_long_threshold cfg)
      (bb_short_threshold cfg) (map snd df) in
  Frame.fused_signal (combine (map fst df_macd) signal_macd)
                     (combine (map fst df) signal_bb).

Definition update_processed_data (cfg : Config)
    (df_macd : list (Z * (float * float))) (df : list (Z * float))
  : option Z :=
  Frame.iloc_last (signal_column cfg df_macd df).

Definition get_executor_config (now : float) :=
  Ladder.get_executor_config now TAKER.

End BollingerMacdDCA.

(** [macd_mt_dca.py] *)
Module MacdMTDCA.

Record Config : Set := mkConfig {
  dca : DCAControllerConfig;
  macd_interval_1 : string;
  macd_fast_1 : Z;
  macd_slow_1 : Z;
  macd_signal_1 : Z;
  macd_signal_type_1 : string;
  macd_interval_2 : string;
  macd_fast_2 : Z;
  macd_slow_2 : Z;
  macd_signal_2 : Z;
  macd_signal_type_2 : string
}.

Definition get_candle_max_records (cfg : Config) : option (list Z) :=
  match PyDict.get Indicator.interval_durations (macd_interval_1 cfg),
        PyDict.get Indicator.interval_durations (macd_interval_2 cfg) with
  | Some duration_1, Some duration_2 =>
      let total_macd_1_seconds := duration_1 * (macd_slow_1 cfg + macd_signal_1 cfg) in
      let total_macd_2_seconds := duration_2 * (macd_slow_2 cfg + macd_signal_2 cfg) in
      let max_seconds := Z.max total_macd_1_seconds total_macd_2_seconds in
      let max_records_macd_1 := max_seconds / duration_1 in
      let max_records_macd_2 := max_seconds / duration_2 in
      Some [max_records_macd_1; max_records_macd_2]
  | _, _ => None
  end.

(** [__init__]: the weights, then [max_records_list]; [None] when
    either raises. *)
Definition __init__ (cfg : Config) : option (Ladder.Controller * list Z) :=
  match Ladder.__init__ (dca cfg) with
  | None => None
  | Some self =>
      match get_candle_max_records cfg with
      | None => None
      | Some max_records_list => Some (self, max_records_list)
      end
  end.

Definition signal_column (cfg : Config)
    (df_macd_1 df_macd_2 : list (Z * (float * float))) : list Z :=
  let signal_macd_1 :=
    Indicator.macd_signal
      (String.eqb (macd_signal_type_1 cfg) "trend_following")
      (map snd df_macd_1) in
  let signal_macd_2 :=
    Indicator.macd_signal
      (String.eqb (macd_signal_type_2 cfg) "trend_following")
      (map snd df_macd_2) in
  Frame.fused_signal (combine (map fst df_macd_1) signal_macd_1)
                     (combine (map fst df_macd_2) signal_macd_2).

Definition update_processed_data (cfg : Config)
    (df_macd_1 df_macd_2 : list (Z * (float * float))) : option Z :=
  Frame.iloc_last (signal_column cfg df_macd_1 df_macd_2).

Definition get_executor_config (now : float) :=
  Ladder.get_executor_config now TAKER.

End MacdMTDCA.


(* ================================================================== *)
(** * Notions used in the statements                                   *)
(* ================================================================== *)





(** The tolerance of the specification, [1e-9]. *)
Definition tolerance : Q := (1 # 1000000000)%Q.

(** The exact sum of the values of a list of decimals. *)
Definition exact_sum (l : list Decimal.t) : Q :=
  fold_right (fun a s => (Decimal.to_Q a + s)%Q) 0%Q l.


(** The configuration of the example: spreads 0.01 and 0.02, amounts
    0.1 and 0.2. *)
Definition example_config : DCAControllerConfig :=
  mkDCAConfig "bollinger" "binance_perpetual" "BTC-USDT"
    [Decimal.Dec 1 (-2); Decimal.Dec 2 (-2)]
    [Decimal.Dec 1 (-1); Decimal.Dec 2 (-1)]
    604800 (Decimal.Dec 3 (-2)) None None None None 20.

(** One amount of [1E+28] followed by [k] amounts of [1]. *)
Definition lopsided_amounts (k : nat) : list Decimal.t :=
  Decimal.Dec 1 28 :: repeat (Decimal.Dec 1 0) k.

(** The configuration of a lopsided ladder of [S k] levels. *)
Definition lopsided_config (k : nat) : DCAControllerConfig :=
  mkDCAConfig "bollinger" "binance_perpetual" "BTC-USDT"
    (repeat (Decimal.Dec 1 (-2)) (S k)) (lopsided_amounts k)
    604800 (Decimal.Dec 3 (-2)) None None None None 20.

(** More levels than a Python list can hold. *)
Definition beyond_capacity : nat := Z.to_nat 20000000000000000000.

(** The refresh test of one executor at the time [now] once a refresh
    time is configured. *)
Definition stale (now refresh : float) (x : ExecutorInfo) : bool :=
  negb (Executor.is_trading x) && Executor.is_active x
  && PrimFloat.ltb (PrimFloat.mul refresh 1000%float)
                   (PrimFloat.sub now (Executor.timestamp x)).

(** The three assignments of the Bollinger rule, row by row. *)
Definition bollinger_row (long_threshold short_threshold v : float) : Z :=
  if PrimFloat.ltb short_threshold v then -1
  else if PrimFloat.ltb v long_threshold then 1 else 0.

(** The intervals of [interval_durations]. *)
Definition known_interval (interval : string) : Prop :=
  In interval (PyDict.keys Indicator.interval_durations).

(** The look-back rule in the words of the specification: the seconds
    an indicator needs are its interval duration times its period; the
    common horizon is the maximum over the indicators; every series
    gets the horizon divided by its own interval duration, rounded
    down. *)
Definition common_horizon (required_seconds : list Z) : Z :=
  match required_seconds with
  | [] => 0
  | s :: rest => fold_left Z.max rest s
  end.

Definition lookback_spec (indicators : list (Z * Z)) : list Z :=
  let horizon :=
    common_horizon (map (fun dp : Z * Z => fst dp * snd dp) indicators) in
  map (fun dp : Z * Z => horizon / fst dp) indicators.

(** A strategy started with 1000 USDT, a loss limit of 30 and one
    controller [c1], whose report shows the PnL [pnl]. *)
Definition one_controller (pnl : Decimal.t) (maxd : PyDict.t Decimal.t)
    (c : Ctrl.t) (executors : list ExecutorInfo) : Strategy.t :=
  Strategy.mk 30%float [("USDT"%string, Decimal.Dec 1000 0)] maxd None false
    0%float [("c1"%string, c)] [("c1"%string, executors)] (fun _ => pnl) [].

(** What [stop_by_portfolio_loss] does with one controller. *)
Definition loss_round (self : Strategy.t) (controller_id : string)
    (controller : Ctrl.t) : Ctrl.t * list Call :=
  if RunnableStatus_eqb (Ctrl.status controller) RUNNING
  then Strategy.stop_with_executors self controller_id controller
  else (controller, []).

(** What [check_manual_cash_out] does with one controller. *)
Definition manual_round (self : Strategy.t) (controller_id : string)
    (controller : Ctrl.t) : Ctrl.t * list Call :=
  if Ctrl.manual_kill_switch controller
     && RunnableStatus_eqb (Ctrl.status controller) RUNNING
  then Strategy.stop_with_executors self controller_id controller
  else if negb (Ctrl.manual_kill_switch controller)
          && RunnableStatus_eqb (Ctrl.status controller) TERMINATED
       then (Ctrl.start controller, [controller_start controller_id])
       else (controller, []).

(** Two states that differ in the running maximum only. *)
Definition same_but_max (a b : Strategy.t) : Prop :=
  Strategy.max_portfolio_loss a = Strategy.max_portfolio_loss b
  /\ Strategy.controllers a = Strategy.controllers b
  /\ Strategy.executors_info a = Strategy.executors_info b
  /\ Strategy.calls a = Strategy.calls b.

(** ** Notions used in the further properties *)

(** A string without the separator ['-']. *)
Fixpoint dash_free (s : string) : Prop :=
  match s with
  | EmptyString => True
  | String c r => c <> "-"%char /\ dash_free r
  end.

(** The quote asset a controller trades. *)
Definition quote_of (item : string * Ctrl.t) : string :=
  Strategy.get_quote_asset (Ctrl.trading_pair (snd item)).

(** One round of the loop of [_get_pnl_by_quote_asset]. *)
Definition pnl_round (pnl : string -> Decimal.t) (pnl_dict : PyDict.t Decimal.t)
    (item : string * Ctrl.t) : PyDict.t Decimal.t :=
  PyDict.set (snd (PyDict.getitem_default Decimal.zero pnl_dict (quote_of item)))
    (quote_of item)
    (fst (PyDict.getitem_default Decimal.zero pnl_dict (quote_of item))
     + pnl (fst item))%dec.

(** One round of the loop of [_get_current_portfolio_value]. *)
Definition valuation_round (acc : PyDict.t Decimal.t * PyDict.t Decimal.t)
    (item : string * Decimal.t) : PyDict.t Decimal.t * PyDict.t Decimal.t :=
  (PyDict.set (fst acc) "asset"
     (snd item + fst (PyDict.getitem_default Decimal.zero (snd acc) (fst item)))%dec,
   snd (PyDict.getitem_default Decimal.zero (snd acc) (fst item))).



(** The larger of a tracked maximum and a current value, as the loop
    of [update_max_portfolio_value] chooses it. *)
Definition later_max (value current : Decimal.t) : Decimal.t :=
  if Decimal.ltb value current then current else value.

(** One round of the loop of [update_max_portfolio_value]. *)
Definition max_round (acc : PyDict.t Decimal.t * PyDict.t Decimal.t)
    (item : string * Decimal.t) : PyDict.t Decimal.t * PyDict.t Decimal.t :=
  (snd (PyDict.getitem_default Decimal.zero (fst acc) (fst item)),
   if Decimal.ltb (snd item)
        (fst (PyDict.getitem_default Decimal.zero (fst acc) (fst item)))
   then PyDict.set (snd acc) (fst item)
          (fst (PyDict.getitem_default Decimal.zero (fst acc) (fst item)))
   else snd acc).

(** Two states that differ in the running maximum at most. *)
Definition only_max_differs (a b : Strategy.t) : Prop :=
  same_but_max a b
  /\ Strategy.initial_portfolio_value a = Strategy.initial_portfolio_value b
  /\ Strategy.cash_out_time a = Strategy.cash_out_time b
  /\ Strategy.cashing_out a = Strategy.cashing_out b
  /\ Strategy.current_timestamp a = Strategy.current_timestamp b
  /\ Strategy.global_pnl_quote a = Strategy.global_pnl_quote b.

(** The test of [evaluate_cash_out_time]. *)
Definition cash_out_due (self : Strategy.t) : bool :=
  match Strategy.cash_out_time self with
  | Some cash_out_time =>
      negb (PrimFloat.eqb cash_out_time 0)
      && PrimFloat.leb cash_out_time (Strategy.current_timestamp self)
      && negb (Strategy.cashing_out self)
  | None => false
  end.

(** A call that stops a controller. *)
Definition is_controller_stop (c : Call) : Prop :=
  exists controller_id, c = controller_stop controller_id.

(** The controllers after every RUNNING one has been stopped. *)
Definition stop_running (controllers : list (string * Ctrl.t))
  : list (string * Ctrl.t) :=
  map (fun item : string * Ctrl.t =>
         (fst item,
          if RunnableStatus_eqb (Ctrl.status (snd item)) RUNNING
          then Ctrl.stop (snd item) else snd item))
      controllers.



(** The three assignments of the MACD rule, row by row. *)
Definition macd_row (trend_following : bool) (r : float * float) : Z :=
  let long_condition :=
    if trend_following then PrimFloat.ltb 0 (fst r)
    else PrimFloat.ltb 0 (fst r) && PrimFloat.ltb (snd r) 0 in
  let short_condition :=
    if trend_following then PrimFloat.ltb (fst r) 0
    else PrimFloat.ltb (fst r) 0 && PrimFloat.ltb 0 (snd r) in
  if short_condition then -1 else if long_condition then 1 else 0.

(** The long and the short condition of the MACD rule for a bar
    (MACDh, MACD). *)
Definition macd_long_condition (trend_following : bool) (r : float * float)
  : bool :=
  if trend_following then PrimFloat.ltb 0 (fst r)
  else PrimFloat.ltb 0 (fst r) && PrimFloat.ltb (snd r) 0.

Definition macd_short_condition (trend_following : bool) (r : float * float)
  : bool :=
  if trend_following then PrimFloat.ltb (fst r) 0
  else PrimFloat.ltb (fst r) 0 && PrimFloat.ltb 0 (snd r).

(* ================================================================== *)
(** * Properties of the signal engines                                 *)
(* ================================================================== *)

Section FrameFacts.

Lemma loc_assign_map {A : Type} (c : A -> bool) (f : A -> Z) (v : Z)
    (rows : list A) :
  Frame.loc_assign (map c rows) (map f rows) v
  = map (fun r => if c r then v else f r) rows.
Proof.
  unfold Frame.loc_assign.
  induction rows as [|r rows IH]; simpl; [reflexivity|].
  now rewrite IH.
Qed.

Lemma bollinger_signal_rows (lt st : float) (bbp : list float) :
  Indicator.bollinger_signal lt st bbp = map (bollinger_row lt st) bbp.
Proof.
  unfold Indicator.bollinger_signal, Frame.constant_column.
  rewrite (loc_assign_map (fun v => PrimFloat.ltb v lt) (fun _ => 0) 1).
  rewrite (loc_assign_map (fun v => PrimFloat.ltb st v)
             (fun r => if PrimFloat.ltb r lt then 1 else 0) (-1)).
  reflexivity.
Qed.

Lemma iloc_last_app {A : Type} (l : list A) (x : A) :
  Frame.iloc_last (l ++ [x]) = Some x.
Proof.
  induction l as [|a l IH]; [reflexivity|].
  simpl. destruct (l ++ [x]) eqn:E; [destruct l; discriminate|].
  exact IH.
Qed.

(** What the backward scan attaches comes from a right row at or
    before the left key. *)
Lemma asof_backward_not_later (right : list (Z * Z)) (t : Z) :
  forall found v,
    Frame.asof_backward right t found = Some v ->
    found = Some v \/ exists t', In (t', v) right /\ t' <= t.
Proof.
  induction right as [|[t' w] r IH]; simpl; intros found v H.
  - now left.
  - destruct (Z.leb_spec t' t) as [Hle|Hgt].
    + destruct (IH _ _ H) as [E|[t'' [Hin Hle']]].
      * injection E as ->. right. exists t'. split; [now left|assumption].
      * right. exists t''. split; [now right|assumption].
    + now left.
Qed.

(** On a right frame sorted by time, no right row at or before the
    left key is later than the attached one, and a row at or before
    the key is attached whenever there is one. *)
Lemma asof_backward_latest (right : list (Z * Z)) (t : Z) :
  StronglySorted (fun a b => fst a <= fst b) right ->
  forall found,
    (forall x, In x right -> fst x <= t ->
       exists t' v, Frame.asof_backward right t found = Some v
                    /\ In (t', v) right /\ fst x <= t' <= t).
Proof.
  induction 1 as [|[t0 v0] r Hs IH Hall]; simpl; intros found x Hin Hx.
  - contradiction.
  - rewrite Forall_forall in Hall.
    assert (H0 : t0 <= t).
    { destruct Hin as [<-|Hin]; [exact Hx|].
      specialize (Hall _ Hin). simpl in Hall. lia. }
    destruct (Z.leb_spec t0 t) as [_|Hgt]; [|lia].
    destruct r as [|[t1 v1] r'].
    + simpl. exists t0, v0. destruct Hin as [<-|[]].
      split; [reflexivity|]. split; [now left|simpl; lia].
    + destruct (Z.leb_spec t1 t) as [H1|H1].
      * destruct (IH (Some v0) (t1, v1) (or_introl eq_refl) H1)
          as [t' [v [Hr [Hin' Hb]]]].
        destruct Hin as [<-|Hin].
        -- exists t', v. split; [exact Hr|]. split; [now right|].
           simpl in *. pose proof (Hall _ (or_introl eq_refl)). simpl in *. lia.
        -- destruct (IH (Some v0) x Hin Hx) as [t'' [v' [Hr' [Hin'' Hb']]]].
           exists t'', v'. split; [exact Hr'|]. split; [now right|lia].
      * destruct Hin as [<-|Hin].
        -- exists t0, v0. simpl.
           destruct (Z.leb_spec t1 t); [lia|].
           split; [reflexivity|]. split; [now left|simpl; lia].
        -- exfalso. inversion Hs as [|? ? Hs' Hall']; subst.
           rewrite Forall_forall in Hall'.
           destruct Hin as [<-|Hin]; [simpl in Hx; lia|].
           specialize (Hall' _ Hin). simpl in *. lia.
Qed.

Lemma fused_signal_nth (left right : list (Z * Z)) (i : nat) :
  nth_error (Frame.fused_signal left right) i
  = option_map
      (fun row : Z * Z =>
         Frame.agree (row, Frame.asof_backward right (fst row) None))
      (nth_error left i).
Proof.
  unfold Frame.fused_signal, Frame.merge_asof.
  rewrite map_map, nth_error_map. reflexivity.
Qed.

End FrameFacts.

(** The order of binary floats is transitive. *)
Lemma SFltb_trans (a v b : spec_float) :
  SFltb a v = true -> SFltb v b = true -> SFltb a b = true.
Proof.
  unfold SFltb.
  destruct a as [sa|sa| |sa ma ea], v as [sv|sv| |sv mv ev],
    b as [sb|sb| |sb mb eb];
    try destruct sa; try destruct sv; try destruct sb;
    cbn [SFcompare]; try discriminate; try reflexivity;
    change (Pos.compare_cont Eq ma mv) with (Pos.compare ma mv);
    change (Pos.compare_cont Eq mv mb) with (Pos.compare mv mb);
    change (Pos.compare_cont Eq ma mb) with (Pos.compare ma mb);
    destruct (Z.compare_spec ea ev), (Z.compare_spec ev eb),
      (Z.compare_spec ea eb);
    try discriminate; try reflexivity; try lia;
    destruct (Pos.compare_spec ma mv), (Pos.compare_spec mv mb),
      (Pos.compare_spec ma mb);
    cbn [CompOpp]; try discriminate; try reflexivity; lia.
Qed.

Lemma ltb_trans (a v b : float) :
  PrimFloat.ltb a v = true -> PrimFloat.ltb v b = true -> PrimFloat.ltb a b = true.
Proof. rewrite !ltb_spec. apply SFltb_trans. Qed.

(** ** C10: short overrides long in the single-indicator engine *)

(** C10.  In [bollinger_dca.update_processed_data], a bar whose band
    percentage [v] satisfies both [v < bb_long_threshold] and
    [v > bb_short_threshold] gets the signal [-1], because the short
    assignment comes after the long one; a bar gets the signal [1]
    exactly when the long condition holds and the short one does not.
    The signal that is emitted, [processed_data["signal"]], is that of
    the last bar.  Both conditions can hold for a bar only if
    [bb_short_threshold < bb_long_threshold]. *)
Theorem bollinger_short_overrides_long :
  forall (cfg : BollingerDCA.Config) (bbp : list float) (i : nat) (v : float),
    nth_error bbp i = Some v ->
    let long_condition := PrimFloat.ltb v (BollingerDCA.bb_long_threshold cfg) in
    let short_condition := PrimFloat.ltb (BollingerDCA.bb_short_threshold cfg) v in
    (long_condition = true -> short_condition = true ->
       nth_error (BollingerDCA.signal_column cfg bbp) i = Some (-1))
    /\ (nth_error (BollingerDCA.signal_column cfg bbp) i = Some 1
        <-> long_condition = true /\ short_condition = false)
    /\ (i = Nat.pred (List.length bbp) ->
        BollingerDCA.update_processed_data cfg bbp
        = nth_error (BollingerDCA.signal_column cfg bbp) i)
    /\ (long_condition = true -> short_condition = true ->
        PrimFloat.ltb (BollingerDCA.bb_short_threshold cfg)
                      (BollingerDCA.bb_long_threshold cfg) = true).
Proof.
  intros cfg bbp i v Hv long_condition short_condition.
  unfold BollingerDCA.update_processed_data, BollingerDCA.signal_column.
  rewrite bollinger_signal_rows, nth_error_map, Hv. simpl.
  unfold bollinger_row. fold long_condition short_condition.
  split; [|split; [split|split]].
  - intros _ ->. reflexivity.
  - clearbody long_condition short_condition.
    destruct short_condition, long_condition; intros E;
      try discriminate E; now split.
  - intros [-> ->]. reflexivity.
  - intros ->.
    assert (Hsplit : exists pre, bbp = pre ++ [v]).
    { clear -Hv. revert Hv. induction bbp as [|a l IH]; simpl; [discriminate|].
      destruct l as [|b l'].
      - simpl. intros [= ->]. now exists [].
      - simpl in *. intros E. destruct (IH E) as [pre ->].
        now exists (a :: pre). }
    destruct Hsplit as [pre ->].
    rewrite map_app. simpl. rewrite iloc_last_app. reflexivity.
  - intros Hl Hs. now apply (ltb_trans _ v).
Qed.

(** The default thresholds swapped: the long threshold above the short
    one, and a bar between them. *)
Lemma bollinger_short_overrides_long_witness :
  let cfg := BollingerDCA.mkConfig
               (mkDCAConfig "b" "binance_perpetual" "BTC-USDT" [] []
                  604800 (Decimal.Dec 3 (-2)) None None None None 20)
               "3m" 100 2%float 1%float 0%float in
  nth_error (BollingerDCA.signal_column cfg [0.5%float]) 0 = Some (-1)
  /\ BollingerDCA.update_processed_data cfg [0.5%float] = Some (-1).
Proof.
  intros cfg.
  pose proof (bollinger_short_overrides_long cfg [0.5%float] 0 0.5%float
                eq_refl) as [H1 [_ [H3 _]]].
  split.
  - apply H1; reflexivity.
  - rewrite (H3 eq_refl). apply H1; reflexivity.
Defined.

(** ** C4: fusion of two signal series *)

(** C4.  For a primary signal series [left] and a secondary one
    [right], each a list of (time, signal) rows joined by the backward
    asof join, the fused signal of the primary row [(t, s1)] is [s1]
    when the attached secondary signal equals [s1] and [0] (FLAT)
    otherwise, also when nothing is attached; so it is [1] (LONG) when
    both are LONG and FLAT when they disagree.  An attached signal
    belongs to a secondary row whose time is at or before [t]. *)
Theorem fused_signal_agreement :
  forall (left right : list (Z * Z)) (i : nat) (t s1 : Z),
    nth_error left i = Some (t, s1) ->
    let attached := Frame.asof_backward right t None in
    (attached = Some s1 ->
       nth_error (Frame.fused_signal left right) i = Some s1)
    /\ (attached <> Some s1 ->
       nth_error (Frame.fused_signal left right) i = Some 0)
    /\ (s1 = 1 -> attached = Some 1 ->
       nth_error (Frame.fused_signal left right) i = Some 1)
    /\ (forall s2, attached = Some s2 ->
          exists t', In (t', s2) right /\ t' <= t).
Proof.
  intros left right i t s1 Hrow attached.
  rewrite fused_signal_nth, Hrow. simpl. fold attached.
  unfold Frame.agree. simpl.
  repeat split.
  - intros ->. now rewrite Z.eqb_refl.
  - intros Hne. destruct attached as [s2|]; [|reflexivity].
    destruct (Z.eqb_spec s1 s2) as [->|]; [now elim Hne|reflexivity].
  - intros -> ->. reflexivity.
  - intros s2 H.
    destruct (asof_backward_not_later right t None s2 H) as [E|E];
      [discriminate|exact E].
Qed.

Lemma fused_signal_agreement_witness :
  nth_error (Frame.fused_signal [(10, 1); (20, 1)] [(5, 1); (15, -1)]) 0 = Some 1
  /\ nth_error (Frame.fused_signal [(10, 1); (20, 1)] [(5, 1); (15, -1)]) 1 = Some 0.
Proof.
  split.
  - apply (fused_signal_agreement [(10, 1); (20, 1)] [(5, 1); (15, -1)] 0 10 1
             eq_refl); reflexivity.
  - apply (fused_signal_agreement [(10, 1); (20, 1)] [(5, 1); (15, -1)] 1 20 1
             eq_refl); discriminate.
Defined.

(** ** C9: the common look-back horizon *)

Lemma known_interval_duration (interval : string) :
  known_interval interval ->
  exists d, PyDict.get Indicator.interval_durations interval = Some d /\ 0 < d.
Proof.
  unfold known_interval. simpl.
  intros H.
  repeat (destruct H as [<-|H]; [eexists; split; [reflexivity|lia]|]).
  contradiction.
Qed.

Lemma floor_bounds (h d : Z) : 0 < d -> (h / d) * d <= h < (h / d + 1) * d.
Proof.
  intros Hd. pose proof (Z.mul_div_le h d Hd).
  pose proof (Z.mul_succ_div_gt h d Hd). lia.
Qed.

(** C9.  With intervals from [interval_durations], both versions of
    [get_candle_max_records] return, for each of the two series, the
    common horizon divided by that series' interval duration and
    rounded down, where the common horizon is the larger of the
    indicators' required seconds: duration times [slow + signal] for a
    MACD series, duration times [bb_length] for the Bollinger series. *)
Theorem get_candle_max_records_common_horizon :
  (forall cfg : BollingerMacdDCA.Config,
      known_interval (BollingerMacdDCA.macd_interval cfg) ->
      known_interval (BollingerMacdDCA.bb_interval cfg) ->
      exists d_macd d_bb,
        PyDict.get Indicator.interval_durations (BollingerMacdDCA.macd_interval cfg)
        = Some d_macd
        /\ PyDict.get Indicator.interval_durations (BollingerMacdDCA.bb_interval cfg)
           = Some d_bb
        /\ let horizon :=
             Z.max (d_macd * (BollingerMacdDCA.macd_slow cfg
                              + BollingerMacdDCA.macd_signal cfg))
                   (d_bb * BollingerMacdDCA.bb_length cfg) in
           BollingerMacdDCA.get_candle_max_records cfg
           = Some [horizon / d_macd; horizon / d_bb]
           /\ BollingerMacdDCA.get_candle_max_records cfg
              = Some (lookback_spec
                        [(d_macd, BollingerMacdDCA.macd_slow cfg
                                  + BollingerMacdDCA.macd_signal cfg);
                         (d_bb, BollingerMacdDCA.bb_length cfg)])
           /\ (horizon / d_macd) * d_macd <= horizon < (horizon / d_macd + 1) * d_macd
           /\ (horizon / d_bb) * d_bb <= horizon < (horizon / d_bb + 1) * d_bb)
  /\
  (forall cfg : MacdMTDCA.Config,
      known_interval (MacdMTDCA.macd_interval_1 cfg) ->
      known_interval (MacdMTDCA.macd_interval_2 cfg) ->
      exists d_1 d_2,
        PyDict.get Indicator.interval_durations (MacdMTDCA.macd_interval_1 cfg)
        = Some d_1
        /\ PyDict.get Indicator.interval_durations (MacdMTDCA.macd_interval_2 cfg)
           = Some d_2
        /\ let horizon :=
             Z.max (d_1 * (MacdMTDCA.macd_slow_1 cfg + MacdMTDCA.macd_signal_1 cfg))
                   (d_2 * (MacdMTDCA.macd_slow_2 cfg + MacdMTDCA.macd_signal_2 cfg)) in
           MacdMTDCA.get_candle_max_records cfg
           = Some [horizon / d_1; horizon / d_2]
           /\ MacdMTDCA.get_candle_max_records cfg
              = Some (lookback_spec
                        [(d_1, MacdMTDCA.macd_slow_1 cfg + MacdMTDCA.macd_signal_1 cfg);
                         (d_2, MacdMTDCA.macd_slow_2 cfg + MacdMTDCA.macd_signal_2 cfg)])
           /\ (horizon / d_1) * d_1 <= horizon < (horizon / d_1 + 1) * d_1
           /\ (horizon / d_2) * d_2 <= horizon < (horizon / d_2 + 1) * d_2).
Proof.
  split.
  - intros cfg H1 H2.
    destruct (known_interval_duration _ H1) as [d1 [E1 P1]].
    destruct (known_interval_duration _ H2) as [d2 [E2 P2]].
    exists d1, d2. split; [exact E1|]. split; [exact E2|].
    unfold BollingerMacdDCA.get_candle_max_records. rewrite E1, E2.
    cbv zeta. split; [reflexivity|]. split; [reflexivity|].
    split; apply floor_bounds; assumption.
  - intros cfg H1 H2.
    destruct (known_interval_duration _ H1) as [d1 [E1 P1]].
    destruct (known_interval_duration _ H2) as [d2 [E2 P2]].
    exists d1, d2. split; [exact E1|]. split; [exact E2|].
    unfold MacdMTDCA.get_candle_max_records. rewrite E1, E2.
    cbv zeta. split; [reflexivity|]. split; [reflexivity|].
    split; apply floor_bounds; assumption.
Qed.

(** Each series' look-back covers its own indicator's period. *)
Lemma lookback_covers_period (d p other : Z) :
  0 < d -> p <= Z.max (d * p) other / d.
Proof.
  intros Hd.
  assert (d * p <= Z.max (d * p) other) by lia.
  apply Z.div_le_lower_bound; [assumption|lia].
Qed.

(** The default configuration of [bollinger_macd_dca] (MACD 21/42/9 and
    Bollinger length 100, both on 3m) asks for 100 bars of each series;
    with the MACD on 1h the Bollinger series needs 1020 bars. *)
Example get_candle_max_records_defaults :
  let dca := mkDCAConfig "m" "binance_perpetual" "BTC-USDT" [] []
               604800 (Decimal.Dec 3 (-2)) None None None None 20 in
  BollingerMacdDCA.get_candle_max_records
    (BollingerMacdDCA.mkConfig dca "3m" 100 2%float 0%float 1%float "3m" 21 42 9)
  = Some [100; 100]
  /\ BollingerMacdDCA.get_candle_max_records
       (BollingerMacdDCA.mkConfig dca "3m" 100 2%float 0%float 1%float "1h" 21 42 9)
     = Some [51; 1020]
  /\ BollingerMacdDCA.get_candle_max_records
       (BollingerMacdDCA.mkConfig dca "2m" 100 2%float 0%float 1%float "1h" 21 42 9)
     = None.
Proof. repeat split. Qed.

Lemma get_candle_max_records_common_horizon_witness :
  let dca := mkDCAConfig "m" "binance_perpetual" "BTC-USDT" [] []
               604800 (Decimal.Dec 3 (-2)) None None None None 20 in
  BollingerMacdDCA.get_candle_max_records
    (BollingerMacdDCA.mkConfig dca "3m" 100 2%float 0%float 1%float "1h" 21 42 9)
  = Some [(3600 * (42 + 9)) / 3600; (3600 * (42 + 9)) / 180]
  /\ MacdMTDCA.get_candle_max_records
       (MacdMTDCA.mkConfig dca "3m" 21 42 9 "mean_reversion"
                           "1h" 21 42 9 "mean_reversion")
     = Some [(3600 * (42 + 9)) / 180; (3600 * (42 + 9)) / 3600].
Proof.
  intros dca. split.
  - destruct (proj1 get_candle_max_records_common_horizon
                (BollingerMacdDCA.mkConfig dca "3m" 100 2%float 0%float 1%float
                                           "1h" 21 42 9))
      as [d1 [d2 [E1 [E2 [H _]]]]].
    + unfold known_interval. simpl. tauto.
    + unfold known_interval. simpl. tauto.
    + simpl in E1, E2. injection E1 as <-. injection E2 as <-. exact H.
  - destruct (proj2 get_candle_max_records_common_horizon
                (MacdMTDCA.mkConfig dca "3m" 21 42 9 "mean_reversion"
                                    "1h" 21 42 9 "mean_reversion"))
      as [d1 [d2 [E1 [E2 [H _]]]]].
    + unfold known_interval. simpl. tauto.
    + unfold known_interval. simpl. tauto.
    + simpl in E1, E2. injection E1 as <-. injection E2 as <-. exact H.
Defined.

(* ================================================================== *)
(** * Properties of the refresh rule                                   *)
(* ================================================================== *)

Section RefreshFacts.

Variable now : float.
Variable self : Ladder.Controller.

Lemma refresh_filter_configured (refresh : float) (x : ExecutorInfo) :
  executor_refresh_time (Ladder.config self) = Some refresh ->
  Ladder.refresh_filter now self x = Some (stale now refresh x).
Proof.
  intros E. unfold Ladder.refresh_filter, Ladder.order_level_refresh_condition, stale.
  rewrite E. destruct (Executor.is_trading x), (Executor.is_active x); reflexivity.
Qed.

Lemma filter_raising_total {A : Type} (f : A -> option bool) (g : A -> bool)
    (l : list A) :
  (forall x, In x l -> f x = Some (g x)) ->
  Ladder.filter_raising f l = Some (filter g l).
Proof.
  induction l as [|a l IH]; simpl; intros H; [reflexivity|].
  rewrite (H a (or_introl eq_refl)), IH by (intros; apply H; now right).
  reflexivity.
Qed.

(** Without a refresh time the call raises as soon as one executor is
    active and not trading, and returns the empty list otherwise. *)
Lemma executors_to_refresh_unconfigured (executors_info : list ExecutorInfo) :
  executor_refresh_time (Ladder.config self) = None ->
  Ladder.executors_to_refresh now self executors_info
  = if existsb (fun x => negb (Executor.is_trading x) && Executor.is_active x)
               executors_info
    then None else Some [].
Proof.
  intros E. unfold Ladder.executors_to_refresh.
  set (waiting := fun x => negb (Executor.is_trading x) && Executor.is_active x).
  assert (H : Ladder.filter_raising (Ladder.refresh_filter now self) executors_info
              = if existsb waiting executors_info then None else Some []).
  { induction executors_info as [|x l IH]; simpl; [reflexivity|].
    rewrite IH. unfold Ladder.refresh_filter, Ladder.order_level_refresh_condition.
    rewrite E.
    change (waiting x) with (negb (Executor.is_trading x) && Executor.is_active x).
    destruct (Executor.is_trading x), (Executor.is_active x),
      (existsb waiting l); reflexivity. }
  rewrite H. destruct (existsb waiting executors_info); reflexivity.
Qed.

End RefreshFacts.

(** ** C8: which executors are refreshed *)

(** C8, as amended.  With a refresh time configured,
    [executors_to_refresh] returns one [StopExecutorAction], carrying
    the controller's id and the executor's id, for each executor that
    is active, not trading, and whose age [time() - timestamp] exceeds
    [executor_refresh_time * 1000], in the order of [executors_info],
    and for no other executor.  The result is the only thing the call
    produces. *)
Theorem executors_to_refresh_rule :
  forall (now : float) (self : Ladder.Controller) (refresh : float)
         (executors_info : list ExecutorInfo),
    executor_refresh_time (Ladder.config self) = Some refresh ->
    exists selected,
      Ladder.executors_to_refresh now self executors_info
      = Some (map (fun x => mkStop (config_id (Ladder.config self)) (Executor.id x))
                  selected)
      /\ selected = filter (stale now refresh) executors_info
      /\ forall x,
           In x selected <->
           In x executors_info
           /\ Executor.is_active x = true
           /\ Executor.is_trading x = false
           /\ PrimFloat.ltb (PrimFloat.mul refresh 1000%float)
                            (PrimFloat.sub now (Executor.timestamp x)) = true.
Proof.
  intros now self refresh executors_info E.
  exists (filter (stale now refresh) executors_info).
  split; [|split; [reflexivity|]].
  - unfold Ladder.executors_to_refresh.
    rewrite (filter_raising_total _ (stale now refresh)); [reflexivity|].
    intros x _. now apply refresh_filter_configured.
  - intros x. rewrite filter_In. unfold stale.
    rewrite !andb_true_iff, negb_true_iff. tauto.
Qed.

(** An executor placed 1500 seconds before [now], with a refresh time
    of one second, and one placed 100 seconds before. *)
Lemma executors_to_refresh_rule_witness :
  let cfg := mkDCAConfig "ctl" "binance_perpetual" "BTC-USDT" [] []
               604800 (Decimal.Dec 3 (-2)) None None (Some 1%float) None 20 in
  let self := Ladder.mkController cfg [] [] in
  let old := Executor.mk "e1" "ctl" 1000%float RUNNING true false in
  let young := Executor.mk "e2" "ctl" 2400%float RUNNING true false in
  Ladder.executors_to_refresh 2500%float self [old; young]
  = Some [mkStop "ctl" "e1"].
Proof.
  intros cfg self old young.
  destruct (executors_to_refresh_rule 2500%float self 1%float [old; young] eq_refl)
    as [selected [H [-> _]]].
  exact H.
Defined.

(** C8 as stated fails: an executor that is active, not trading and
    100 seconds old, with a refresh time of 60, is older than the
    refresh time and is not refreshed. *)
Lemma executors_to_refresh_age_counterexample :
  let cfg := mkDCAConfig "ctl" "binance_perpetual" "BTC-USDT" [] []
               604800 (Decimal.Dec 3 (-2)) None None (Some 60%float) None 20 in
  let self := Ladder.mkController cfg [] [] in
  let x := Executor.mk "e1" "ctl" 1000%float RUNNING true false in
  let now := 1100%float in
  (Executor.is_active x = true
   /\ Executor.is_trading x = false
   /\ PrimFloat.ltb 60%float (PrimFloat.sub now (Executor.timestamp x)) = true)
  /\ Ladder.executors_to_refresh now self [x] = Some [].
Proof. repeat split. Qed.

(* ================================================================== *)
(** * Properties of the strategy script                                *)
(* ================================================================== *)

(** ** Dictionaries *)

Section DictFacts.

Context {V : Type}.

Lemma get_set (d : PyDict.t V) (k k' : string) (v : V) :
  PyDict.get (PyDict.set d k v) k'
  = if String.eqb k k' then Some v else PyDict.get d k'.
Proof.
  induction d as [|[k0 v0] d IH]; simpl.
  - reflexivity.
  - destruct (String.eqb_spec k0 k) as [->|Hne]; simpl.
    + destruct (String.eqb_spec k k'); reflexivity.
    + rewrite IH. destruct (String.eqb_spec k0 k') as [->|]; [|reflexivity].
      destruct (String.eqb_spec k k'); [congruence|reflexivity].
Qed.

(** Reading a [defaultdict] returns what [get] with the default
    returns, and changes no later reading. *)
Lemma getitem_default_value (dflt : V) (d : PyDict.t V) (k : string) :
  fst (PyDict.getitem_default dflt d k) = PyDict.get_or dflt d k.
Proof.
  unfold PyDict.getitem_default, PyDict.get_or.
  destruct (PyDict.get d k); reflexivity.
Qed.

Lemma getitem_default_keeps (dflt : V) (d : PyDict.t V) (k k' : string) :
  PyDict.get_or dflt (snd (PyDict.getitem_default dflt d k)) k'
  = PyDict.get_or dflt d k'.
Proof.
  unfold PyDict.getitem_default, PyDict.get_or.
  destruct (PyDict.get d k) eqn:E; simpl; [reflexivity|].
  rewrite get_set. destruct (String.eqb_spec k k') as [<-|]; [|reflexivity].
  now rewrite E.
Qed.

End DictFacts.

(** ** Loops over the controllers *)

Section ControllerLoops.

Variable self : Strategy.t.
Variable body : string -> Ctrl.t -> Ctrl.t * list Call.

Lemma for_controllers_controllers :
  Strategy.controllers (Strategy.for_controllers self body)
  = map (fun item : string * Ctrl.t =>
           (fst item, fst (body (fst item) (snd item))))
        (Strategy.controllers self).
Proof.
  unfold Strategy.for_controllers. simpl. rewrite map_map.
  apply map_ext. intros [k c]. simpl. destruct (body k c); reflexivity.
Qed.

Lemma for_controllers_calls :
  Strategy.calls (Strategy.for_controllers self body)
  = Strategy.calls self
    ++ flat_map (fun item : string * Ctrl.t => snd (body (fst item) (snd item)))
                (Strategy.controllers self).
Proof.
  unfold Strategy.for_controllers. simpl. f_equal.
  rewrite map_map, flat_map_concat_map. f_equal.
  apply map_ext. intros [k c]. simpl. destruct (body k c); reflexivity.
Qed.

(** With distinct keys, the calls of one controller's round stand
    together in the calls of the loop, and a call that only this
    controller's round can make occurs nowhere else. *)
Lemma flat_map_round (items : list (string * Ctrl.t)) (k : string) (c : Ctrl.t) :
  In (k, c) items ->
  exists pre post,
    flat_map (fun item : string * Ctrl.t => snd (body (fst item) (snd item))) items
    = pre ++ snd (body k c) ++ post
    /\ (forall call,
          (forall k' c', In call (snd (body k' c')) -> k' = k) ->
          NoDup (map fst items) ->
          ~ In call pre /\ ~ In call post).
Proof.
  induction items as [|[k0 c0] items IH]; simpl; [contradiction|].
  intros [E|Hin].
  - injection E as -> ->. exists [], (flat_map
      (fun item : string * Ctrl.t => snd (body (fst item) (snd item))) items).
    split; [reflexivity|].
    intros call Hown Hnd. split; [intros []|].
    rewrite in_flat_map. intros [[k' c'] [Hin' Hc]]. simpl in Hc.
    apply Hown in Hc. subst k'. inversion Hnd as [|? ? Hnot _]. apply Hnot.
    change k with (fst (k, c')). now apply in_map.
  - destruct (IH Hin) as [pre [post [E Hrest]]].
    exists (snd (body k0 c0) ++ pre), post. split.
    + rewrite E, app_assoc. reflexivity.
    + intros call Hown Hnd. inversion Hnd as [|? ? Hnot Hnd']. subst.
      destruct (Hrest call Hown Hnd') as [Hpre Hpost]. split; [|exact Hpost].
      rewrite in_app_iff. intros [Hc|Hc]; [|now apply Hpre].
      apply Hown in Hc. subst k0. apply Hnot.
      change k with (fst (k, c)). now apply in_map.
Qed.

End ControllerLoops.

(** ** C1: the portfolio valuation *)


(** The initial snapshot is keyed by the quote asset. *)
Example initial_portfolio_value_by_quote_asset :
  option_map Strategy.initial_portfolio_value
    (Strategy._set_initial_portfolio_value
       [("USDT"%string, Decimal.Dec 1000 0); ("BTC"%string, Decimal.Dec 2 0)]
       [("binance_perpetual"%string, ["BTC-USDT"%string; "ETH-USDT"%string])]
       (one_controller Decimal.zero [] (Ctrl.mk RUNNING false "BTC-USDT") []))
  = Some [("USDT"%string, Decimal.Dec 1000 0)].
Proof. reflexivity. Qed.

(** C1 fails on the code.  With the initial snapshot [{USDT: 1000}] and
    a cumulative PnL of 5 on USDT, the PnL by quote asset is
    [{USDT: 5}], but the valuation returns [{"asset": 1005}]: USDT is
    not mapped to 1005, and the only entry is under a key that is not a
    quote asset of the snapshot. *)
Theorem current_portfolio_value_literal_key :
  let self := one_controller (Decimal.Dec 5 0) []
                (Ctrl.mk RUNNING false "BTC-USDT") [] in
  Strategy._get_pnl_by_quote_asset self = [("USDT"%string, Decimal.Dec 5 0)]
  /\ Strategy._get_current_portfolio_value self
     = [("asset"%string, Decimal.Dec 1005 0)]
  /\ PyDict.get (Strategy._get_current_portfolio_value self) "USDT" = None
  /\ PyDict.get (Strategy.initial_portfolio_value self) "asset" = None.
Proof. repeat split. Qed.

(** With two quote assets only the last one of the snapshot is valued. *)
Example current_portfolio_value_two_assets :
  let self :=
    Strategy.mk 30%float
      [("USDT"%string, Decimal.Dec 1000 0); ("BTC"%string, Decimal.Dec 2 0)]
      [] None false 0%float
      [("c1"%string, Ctrl.mk RUNNING false "ETH-USDT");
       ("c2"%string, Ctrl.mk RUNNING false "ETH-BTC")]
      [] (fun c => if String.eqb c "c1" then Decimal.Dec (-500) 0
                   else Decimal.Dec 1 (-1)) [] in
  Strategy._get_pnl_by_quote_asset self
  = [("USDT"%string, Decimal.Dec (-500) 0); ("BTC"%string, Decimal.Dec 1 (-1))]
  /\ Strategy._get_current_portfolio_value self
     = [("asset"%string, Decimal.Dec 21 (-1))].
Proof. repeat split. Qed.

(** ** C3: the drawdown trigger *)




Lemma update_max_portfolio_value_same (self : Strategy.t) :
  same_but_max (Strategy.update_max_portfolio_value self) self
  /\ Strategy._get_current_portfolio_value (Strategy.update_max_portfolio_value self)
     = Strategy._get_current_portfolio_value self.
Proof.
  unfold Strategy.update_max_portfolio_value.
  destruct (Strategy.max_portfolio_value self); split; repeat split.
Qed.

Lemma status_eqb_RUNNING (s : RunnableStatus) :
  RunnableStatus_eqb s RUNNING = true <-> s = RUNNING.
Proof. destruct s; simpl; split; congruence. Qed.

Lemma status_eqb_TERMINATED (s : RunnableStatus) :
  RunnableStatus_eqb s TERMINATED = true <-> s = TERMINATED.
Proof. destruct s; simpl; split; congruence. Qed.



(** The trigger reads the valuation as the code computes it: with two
    quote assets, 1000 USDT and 2 BTC, a loss of 500 USDT leaves the
    one valued entry (the last asset's) at its maximum, and nothing is
    stopped. *)
Example drawdown_reads_the_valuation :
  let self :=
    Strategy.mk 30%float
      [("USDT"%string, Decimal.Dec 1000 0); ("BTC"%string, Decimal.Dec 2 0)]
      [("asset"%string, Decimal.Dec 2 0)] None false 0%float
      [("c1"%string, Ctrl.mk RUNNING false "ETH-USDT");
       ("c2"%string, Ctrl.mk RUNNING false "ETH-BTC")]
      [] (fun c => if String.eqb c "c1" then Decimal.Dec (-500) 0
                   else Decimal.zero) [] in
  option_map Strategy.controllers (Strategy.control_portfolio_loss self)
  = Some (Strategy.controllers self)
  /\ option_map Strategy.calls (Strategy.control_portfolio_loss self) = Some [].
Proof. split; vm_compute; reflexivity. Qed.

(** [on_tick] makes the drawdown check only with a loss limit other
    than 0. *)
Lemma on_tick_without_loss_limit (self : Strategy.t) :
  PrimFloat.eqb (Strategy.max_portfolio_loss self) 0 = true ->
  Strategy.on_tick self = Some (Strategy.control_cash_out self).
Proof. intros H. unfold Strategy.on_tick. now rewrite H. Qed.

(** Below the limit nothing is stopped. *)
Example drawdown_below_limit :
  let self := one_controller (Decimal.Dec (-2999) (-2))
                [("asset"%string, Decimal.Dec 1000 0)]
                (Ctrl.mk RUNNING false "BTC-USDT") [] in
  option_map Strategy.controllers (Strategy.control_portfolio_loss self)
  = Some [("c1"%string, Ctrl.mk RUNNING false "BTC-USDT")]
  /\ option_map Strategy.calls (Strategy.control_portfolio_loss self) = Some [].
Proof. split; vm_compute; reflexivity. Qed.

(** ** C5: draining while cashing out *)

Lemma evaluate_cash_out_time_idle (self : Strategy.t) :
  Strategy.cashing_out (Strategy.evaluate_cash_out_time self) = false ->
  Strategy.evaluate_cash_out_time self = self.
Proof.
  unfold Strategy.evaluate_cash_out_time.
  destruct (Strategy.cash_out_time self) as [t|]; [|reflexivity].
  destruct (negb (PrimFloat.eqb t 0) && PrimFloat.leb t (Strategy.current_timestamp self)
            && negb (Strategy.cashing_out self)); [discriminate|reflexivity].
Qed.

Lemma evaluate_cash_out_time_cashing (self : Strategy.t) :
  Strategy.cashing_out self = true ->
  Strategy.evaluate_cash_out_time self = self.
Proof.
  unfold Strategy.evaluate_cash_out_time. intros ->.
  destruct (Strategy.cash_out_time self) as [t|]; [|reflexivity].
  now rewrite andb_false_r.
Qed.

Lemma evaluate_cash_out_time_executors (self : Strategy.t) :
  Strategy.executors_info (Strategy.evaluate_cash_out_time self)
  = Strategy.executors_info self.
Proof.
  unfold Strategy.evaluate_cash_out_time.
  destruct (Strategy.cash_out_time self) as [t|]; [|reflexivity].
  destruct (negb (PrimFloat.eqb t 0) && PrimFloat.leb t (Strategy.current_timestamp self)
            && negb (Strategy.cashing_out self)); reflexivity.
Qed.

(** While cashing out, [control_cash_out] is [check_executors_status],
    which leaves the controllers as they are. *)
Lemma control_cash_out_cashing (self : Strategy.t) :
  Strategy.cashing_out (Strategy.evaluate_cash_out_time self) = true ->
  Strategy.control_cash_out self
  = Strategy.check_executors_status (Strategy.evaluate_cash_out_time self)
  /\ Strategy.controllers (Strategy.control_cash_out self)
     = Strategy.controllers (Strategy.evaluate_cash_out_time self).
Proof.
  intros Hcash. unfold Strategy.control_cash_out. rewrite Hcash.
  split; [reflexivity|].
  unfold Strategy.check_executors_status.
  destruct (filter_executors _ _); reflexivity.
Qed.

(** C5.  When the strategy is cashing out after the scheduled check of
    the tick, [control_cash_out] runs [check_executors_status]: if no
    executor has status RUNNING the one call made is the shutdown of
    the application; otherwise the one call made is an
    [execute_actions] whose stop requests are those of the RUNNING
    executors that are not trading, each of them, and of no executor
    that is trading.  The controllers are left as they are. *)
Theorem cash_out_drain :
  forall self : Strategy.t,
    let ready := Strategy.evaluate_cash_out_time self in
    let executors := Strategy.get_all_executors self in
    Strategy.cashing_out ready = true ->
    Strategy.control_cash_out self = Strategy.check_executors_status ready
    /\ Strategy.controllers (Strategy.control_cash_out self)
       = Strategy.controllers ready
    /\ ((forall x, In x executors -> Executor.status x <> RUNNING) ->
        Strategy.calls (Strategy.control_cash_out self)
        = Strategy.calls ready ++ [application_stop])
    /\ ((exists x, In x executors /\ Executor.status x = RUNNING) ->
        exists actions,
          Strategy.calls (Strategy.control_cash_out self)
          = Strategy.calls ready ++ [execute_actions actions]
          /\ (forall x, In x executors -> Executor.status x = RUNNING ->
                Executor.is_trading x = false ->
                In (mkStop (Executor.controller_id x) (Executor.id x)) actions)
          /\ (forall a, In a actions ->
                exists x, In x executors /\ Executor.status x = RUNNING
                          /\ Executor.is_trading x = false
                          /\ a = mkStop (Executor.controller_id x) (Executor.id x))).
Proof.
  intros self ready executors Hcash.
  assert (Hexec : Strategy.get_all_executors ready = executors).
  { unfold executors, Strategy.get_all_executors, ready.
    now rewrite evaluate_cash_out_time_executors. }
  assert (Hrun : Strategy.control_cash_out self = Strategy.check_executors_status ready).
  { unfold Strategy.control_cash_out. fold ready. now rewrite Hcash. }
  rewrite Hrun. unfold Strategy.check_executors_status, filter_executors.
  rewrite Hexec.
  set (running := fun executor : ExecutorInfo =>
                    RunnableStatus_eqb (Executor.status executor) RUNNING).
  split; [reflexivity|]. split; [|split].
  - destruct (filter running executors); reflexivity.
  - intros Hnone.
    assert (E : filter running executors = []).
    { destruct (filter running executors) as [|x l] eqn:E; [reflexivity|].
      assert (Hx : In x (filter running executors)) by (rewrite E; now left).
      apply filter_In in Hx. destruct Hx as [Hin Hr].
      apply status_eqb_RUNNING in Hr. now elim (Hnone x Hin). }
    rewrite E. reflexivity.
  - intros [x0 [Hin0 Hr0]].
    assert (Hne : filter running executors <> []).
    { intros E. assert (Hx : In x0 (filter running executors)).
      { apply filter_In. split; [exact Hin0|]. now apply status_eqb_RUNNING. }
      rewrite E in Hx. exact Hx. }
    exists (Strategy.stop_actions
              (filter (fun executor => negb (Executor.is_trading executor))
                      (filter running executors))).
    split; [|split].
    + destruct (filter running executors); [now elim Hne|reflexivity].
    + intros x Hin Hr Ht. unfold Strategy.stop_actions.
      apply in_map_iff. exists x. split; [reflexivity|].
      apply filter_In. split; [|now rewrite Ht].
      apply filter_In. split; [exact Hin|]. now apply status_eqb_RUNNING.
    + intros a Ha. unfold Strategy.stop_actions in Ha.
      apply in_map_iff in Ha. destruct Ha as [x [<- Hx]].
      apply filter_In in Hx. destruct Hx as [Hx Ht].
      apply filter_In in Hx. destruct Hx as [Hin Hr].
      exists x. split; [exact Hin|]. split; [now apply status_eqb_RUNNING|].
      split; [|reflexivity]. now apply negb_true_iff in Ht.
Qed.

(** Cashing out with one executor waiting, one trading and one closed:
    only the waiting one is stopped; with none running the application
    is stopped. *)
Lemma cash_out_drain_witness :
  let waiting := Executor.mk "e1" "c1" 0%float RUNNING true false in
  let trading := Executor.mk "e2" "c1" 0%float RUNNING true true in
  let closed := Executor.mk "e3" "c1" 0%float TERMINATED false false in
  let self := fun executors =>
    Strategy.mk 30%float [] [] (Some 100%float) true 200%float
      [("c1"%string, Ctrl.mk TERMINATED false "BTC-USDT")]
      [("c1"%string, executors)] (fun _ => Decimal.zero) [] in
  Strategy.calls (Strategy.control_cash_out (self [closed])) = [application_stop]
  /\ Strategy.calls (Strategy.control_cash_out (self [waiting; trading; closed]))
     = [execute_actions [mkStop "c1" "e1"]].
Proof.
  intros waiting trading closed self. split.
  - destruct (cash_out_drain (self [closed]) eq_refl) as [_ [_ [H _]]].
    rewrite H; [reflexivity|].
    intros x [<-|[]]. discriminate.
  - destruct (cash_out_drain (self [waiting; trading; closed]) eq_refl)
      as [E _].
    rewrite E. reflexivity.
Defined.

(** ** C6: the manual kill switch *)

Lemma check_manual_cash_out_rounds (self : Strategy.t) :
  Strategy.check_manual_cash_out self
  = Strategy.for_controllers self (manual_round self).
Proof.
  unfold Strategy.check_manual_cash_out, Strategy.for_controllers.
  f_equal; [f_equal|do 2 f_equal]; apply map_ext; intros [k [s b p]];
    unfold manual_round; simpl; destruct b, s; reflexivity.
Qed.

(** C6, as amended.  On a tick on which the strategy is not cashing
    out after the scheduled check, [control_cash_out] runs
    [check_manual_cash_out]: a controller whose kill switch is set
    while it is RUNNING is stopped, with one [execute_actions] carrying
    a stop request for each of its executors; a controller whose kill
    switch is cleared while it is TERMINATED is started again.  On a
    tick on which the strategy is cashing out, [control_cash_out] runs
    [check_executors_status] instead, which stops and starts no
    controller. *)
Theorem manual_cash_out_when_not_cashing_out :
  forall self : Strategy.t,
    let ready := Strategy.evaluate_cash_out_time self in
    (Strategy.cashing_out ready = false ->
     forall controller_id controller,
       In (controller_id, controller) (Strategy.controllers self) ->
       (Ctrl.manual_kill_switch controller = true ->
        Ctrl.status controller = RUNNING ->
        In (controller_id, Ctrl.stop controller)
           (Strategy.controllers (Strategy.control_cash_out self))
        /\ exists pre post,
             Strategy.calls (Strategy.control_cash_out self)
             = Strategy.calls self
               ++ pre
               ++ [controller_stop controller_id;
                   execute_actions
                     (Strategy.stop_actions
                        (Strategy.get_executors_by_controller self controller_id))]
               ++ post)
       /\ (Ctrl.manual_kill_switch controller = false ->
           Ctrl.status controller = TERMINATED ->
           In (controller_id, Ctrl.start controller)
              (Strategy.controllers (Strategy.control_cash_out self))
           /\ In (controller_start controller_id)
                 (Strategy.calls (Strategy.control_cash_out self))))
    /\ (Strategy.cashing_out ready = true ->
        Strategy.control_cash_out self = Strategy.check_executors_status ready
        /\ Strategy.controllers (Strategy.control_cash_out self)
           = Strategy.controllers ready).
Proof.
  intros self ready. split.
  - intros Hidle cid c Hin.
    assert (Hself : ready = self) by now apply evaluate_cash_out_time_idle.
    assert (Hrun : Strategy.control_cash_out self
                   = Strategy.for_controllers self (manual_round self)).
    { unfold Strategy.control_cash_out. fold ready. rewrite Hidle, Hself.
      apply check_manual_cash_out_rounds. }
    rewrite Hrun, for_controllers_controllers, for_controllers_calls.
    destruct (flat_map_round (manual_round self) _ cid c Hin)
      as [pre [post [E _]]].
    split.
    + intros Hkill Hst. apply status_eqb_RUNNING in Hst.
      assert (Hr : manual_round self cid c = Strategy.stop_with_executors self cid c).
      { unfold manual_round. now rewrite Hkill, Hst. }
      split.
      * apply in_map_iff. exists (cid, c). split; [|exact Hin].
        simpl. now rewrite Hr.
      * exists pre, post. rewrite E, Hr. reflexivity.
    + intros Hkill Hst. apply status_eqb_TERMINATED in Hst.
      assert (Hr : manual_round self cid c
                   = (Ctrl.start c, [controller_start cid])).
      { unfold manual_round. now rewrite Hkill, Hst. }
      split.
      * apply in_map_iff. exists (cid, c). split; [|exact Hin].
        simpl. now rewrite Hr.
      * rewrite E, Hr. simpl. rewrite !in_app_iff. right. right. now left.
  - intros Hcash. now apply control_cash_out_cashing.
Qed.

(** A controller with the kill switch set and one cleared after a
    stop, while the strategy is not cashing out. *)
Lemma manual_cash_out_when_not_cashing_out_witness :
  let x := Executor.mk "e1" "c1" 0%float RUNNING true true in
  let self :=
    Strategy.mk 30%float [] [] None false 200%float
      [("c1"%string, Ctrl.mk RUNNING true "BTC-USDT");
       ("c2"%string, Ctrl.mk TERMINATED false "ETH-USDT")]
      [("c1"%string, [x])] (fun _ => Decimal.zero) [] in
  In ("c1"%string, Ctrl.mk TERMINATED true "BTC-USDT")
     (Strategy.controllers (Strategy.control_cash_out self))
  /\ In ("c2"%string, Ctrl.mk RUNNING false "ETH-USDT")
        (Strategy.controllers (Strategy.control_cash_out self))
  /\ In (controller_start "c2") (Strategy.calls (Strategy.control_cash_out self)).
Proof.
  intros x self.
  pose proof (proj1 (manual_cash_out_when_not_cashing_out self) eq_refl) as H.
  destruct (H "c1"%string (Ctrl.mk RUNNING true "BTC-USDT") (or_introl eq_refl))
    as [H1 _].
  destruct (H "c2"%string (Ctrl.mk TERMINATED false "ETH-USDT")
              (or_intror (or_introl eq_refl))) as [_ H2].
  destruct (H1 eq_refl eq_refl) as [Hc1 _].
  destruct (H2 eq_refl eq_refl) as [Hc2 Hs2].
  split; [exact Hc1|]. split; [exact Hc2|exact Hs2].
Defined.

(** C6 as stated fails once the scheduled cash-out has begun: a
    RUNNING controller with the kill switch set is not stopped and no
    stop request is made for its executor, and a TERMINATED controller
    with the kill switch cleared is not started again. *)
Lemma manual_cash_out_counterexample :
  let x := Executor.mk "e1" "c1" 0%float RUNNING true true in
  let self :=
    Strategy.mk 30%float [] [] (Some 100%float) true 200%float
      [("c1"%string, Ctrl.mk RUNNING true "BTC-USDT");
       ("c2"%string, Ctrl.mk TERMINATED false "ETH-USDT")]
      [("c1"%string, [x])] (fun _ => Decimal.zero) [] in
  Strategy.controllers (Strategy.control_cash_out self)
  = [("c1"%string, Ctrl.mk RUNNING true "BTC-USDT");
     ("c2"%string, Ctrl.mk TERMINATED false "ETH-USDT")]
  /\ Strategy.calls (Strategy.control_cash_out self) = [execute_actions []].
Proof. split; reflexivity. Qed.

(* ================================================================== *)
(** * Properties of decimal arithmetic                                 *)
(* ================================================================== *)

(** The operations on values whose results in Python are familiar. *)
Example decimal_examples :
  Decimal.div (Decimal.Dec 1 0) (Decimal.Dec 3 0)
  = Some (Decimal.Dec 3333333333333333333333333333 (-28))
  /\ Decimal.div (Decimal.Dec 2 0) (Decimal.Dec 3 0)
     = Some (Decimal.Dec 6666666666666666666666666667 (-28))
  /\ Decimal.div (Decimal.Dec 1 0) (Decimal.Dec 7 0)
     = Some (Decimal.Dec 1428571428571428571428571429 (-28))
  /\ Decimal.div (Decimal.Dec 22 0) (Decimal.Dec 7 0)
     = Some (Decimal.Dec 3142857142857142857142857143 (-27))
  /\ Decimal.div (Decimal.Dec 1 0) (Decimal.Dec 8 0)
     = Some (Decimal.Dec 125 (-3))
  /\ Decimal.div (Decimal.Dec 100 0) (Decimal.Dec 10 0)
     = Some (Decimal.Dec 10 0)
  /\ Decimal.div (Decimal.Dec 1 0) (Decimal.Dec 0 0) = None
  /\ Decimal.add (Decimal.Dec 1 (-1)) (Decimal.Dec 2 (-1)) = Decimal.Dec 3 (-1)
  /\ Decimal.add (Decimal.Dec 1 28) (Decimal.Dec 1 0)
     = Decimal.Dec 1000000000000000000000000000 1
  /\ Decimal.sub (Decimal.Dec 1 0) (Decimal.Dec 1 (-2)) = Decimal.Dec 99 (-2)
  /\ Decimal.mul (Decimal.Dec 100 0) (Decimal.Dec 99 (-2)) = Decimal.Dec 9900 (-2)
  /\ Decimal.mul (Decimal.Dec 9999999999999999999999999999 0)
                 (Decimal.Dec 9999999999999999999999999999 0)
     = Decimal.Dec 9999999999999999999999999998 28.
Proof. repeat split. Qed.





Local Open Scope Q_scope.

Lemma pow10_pos (e : Z) : 0 < 10 ^ e.
Proof. apply Qpower_0_lt. reflexivity. Qed.


Lemma to_Q_align (x : Decimal.t) (e : Z) :
  (e <= Decimal.expo x)%Z ->
  Decimal.to_Q x == inject_Z (Decimal.align x e) * 10 ^ e.
Proof.
  intros He. unfold Decimal.to_Q, Decimal.align.
  rewrite inject_Z_mult, Zpower_Qpower by lia.
  replace (Decimal.expo x) with ((Decimal.expo x - e) + e)%Z at 1 by lia.
  rewrite Qpower_plus by discriminate.
  change (inject_Z 10) with 10. ring.
Qed.



(** [0 + x], which [sum] starts with, is [x.__radd__(0)], that is
    [x + Decimal(0)]; the order of the operands does not matter. *)
Lemma add_comm (x y : Decimal.t) : Decimal.add x y = Decimal.add y x.
Proof.
  unfold Decimal.add. rewrite (Z.min_comm (Decimal.expo y)).
  now rewrite (Z.add_comm (Decimal.align y _)).
Qed.


Local Open Scope Z_scope.



Local Open Scope Q_scope.













Local Open Scope Z_scope.

(* ================================================================== *)
(** * Properties of the ladder builder                                 *)
(* ================================================================== *)




(** ** C2: the example of the specification *)

(** C2, as amended.  With side BUY, reference price 100, amount 300,
    spreads [0.01, 0.02] and amounts [0.1, 0.2], [get_executor_config]
    builds a plan of two levels: the prices are 99.00 and 98.00, the
    reference price times [1 - spread]; the weights are the amounts
    over their sum, 0.3333333333333333333333333333 and
    0.6666666666666666666666666667; the quote amount of a level is the
    amount times its weight times its price,
    9899.999999999999999999999999 and 19600.00000000000000000000000,
    which are 9900 and 19600 up to the rounding of the weights. *)
Theorem ladder_example :
  exists self,
    Ladder.__init__ example_config = Some self
    /\ Ladder.dca_amounts_pct self
       = [Decimal.Dec 3333333333333333333333333333 (-28);
          Decimal.Dec 6666666666666666666666666667 (-28)]
    /\ let plan := Ladder.get_executor_config 0%float MAKER self BUY
                     (Decimal.of_Z 100) (Decimal.of_Z 300) in
       prices plan = [Decimal.Dec 9900 (-2); Decimal.Dec 9800 (-2)]
       /\ amounts_quote plan
          = [Decimal.Dec 9899999999999999999999999999 (-24);
             Decimal.Dec 1960000000000000000000000000 (-23)]
       /\ (Forall2 (fun p exact => Decimal.to_Q p == exact) (prices plan) [99; 98])%Q
       /\ (Forall2 (fun a exact => Qabs (Decimal.to_Q a - exact) <= 1 # 10 ^ 24)
             (amounts_quote plan) [9900; 19600])%Q.
Proof.
  eexists. split; [vm_compute; reflexivity|].
  split; [reflexivity|]. cbv zeta.
  match goal with |- ?P = ?l /\ ?A = ?m /\ _ =>
    assert (Hp : P = l) by (vm_compute; reflexivity);
    assert (Ha : A = m) by (vm_compute; reflexivity)
  end.
  split; [exact Hp|]. split; [exact Ha|].
  rewrite Hp, Ha. split.
  - repeat (constructor; [reflexivity|]). constructor.
  - repeat (constructor; [vm_compute; discriminate|]). constructor.
Qed.

(** C2 as stated fails: the quote amounts of the plan are not 100 and
    200. *)
Lemma ladder_example_counterexample :
  exists self,
    Ladder.__init__ example_config = Some self
    /\ let plan := Ladder.get_executor_config 0%float MAKER self BUY
                     (Decimal.of_Z 100) (Decimal.of_Z 300) in
       ~ (Forall2 (fun a exact => Decimal.to_Q a == exact)
            (amounts_quote plan) [100; 200])%Q.
Proof.
  eexists. split; [vm_compute; reflexivity|]. cbv zeta.
  match goal with |- ~ Forall2 _ ?A _ =>
    assert (Ha : A = [Decimal.Dec 9899999999999999999999999999 (-24);
                      Decimal.Dec 1960000000000000000000000000 (-23)])
      by (vm_compute; reflexivity)
  end.
  rewrite Ha. intros H. inversion H as [|a b l l' Hab _]; subst.
  vm_compute in Hab. discriminate Hab.
Qed.

(** ** C7: number of levels and sum of the weights *)




(** ** Long ladders *)

Lemma sum_lopsided (k : nat) :
  Decimal.sum (lopsided_amounts k) = Decimal.Dec (10 ^ 27) 1.
Proof.
  unfold Decimal.sum, lopsided_amounts. cbn [fold_left].
  replace (Decimal.add (Decimal.of_Z 0) (Decimal.Dec 1 28))
    with (Decimal.Dec (10 ^ 27) 1) by (vm_compute; reflexivity).
  induction k as [|k IH]; cbn [repeat fold_left]; [reflexivity|].
  replace (Decimal.add (Decimal.Dec (10 ^ 27) 1) (Decimal.Dec 1 0))
    with (Decimal.Dec (10 ^ 27) 1) by (vm_compute; reflexivity).
  exact IH.
Qed.

Lemma exact_sum_repeat (p : Decimal.t) (k : nat) :
  (exact_sum (repeat p k) == inject_Z (Z.of_nat k) * Decimal.to_Q p)%Q.
Proof.
  induction k as [|k IH].
  - simpl. change (inject_Z 0) with 0%Q. ring.
  - cbn [repeat exact_sum fold_right]. fold (exact_sum (repeat p k)).
    rewrite IH, Nat2Z.inj_succ. unfold Z.succ. rewrite inject_Z_plus.
    change (inject_Z 1) with 1%Q. ring.
Qed.

(** The weights of a lopsided ladder: the small amounts are lost in
    the 28 digits of the sum, and each of them still gets the weight
    [1E-28]. *)
Lemma init_lopsided (cfg : DCAControllerConfig) (k : nat) :
  dca_amounts cfg = lopsided_amounts k ->
  exists self,
    Ladder.__init__ cfg = Some self
    /\ (exact_sum (Ladder.dca_amounts_pct self)
        == 1 + inject_Z (Z.of_nat k) * (1 # 10 ^ 28))%Q.
Proof.
  intros E. unfold Ladder.__init__. rewrite E, sum_lopsided.
  assert (H : Ladder.map_raising
                (fun amount => Decimal.div amount (Decimal.Dec (10 ^ 27) 1))
                (lopsided_amounts k)
              = Some (Decimal.Dec 1 0 :: repeat (Decimal.Dec 1 (-28)) k)).
  { unfold lopsided_amounts. cbn [Ladder.map_raising].
    replace (Decimal.div (Decimal.Dec 1 28) (Decimal.Dec (10 ^ 27) 1))
      with (Some (Decimal.Dec 1 0)) by (vm_compute; reflexivity).
    assert (R : Ladder.map_raising
                  (fun amount => Decimal.div amount (Decimal.Dec (10 ^ 27) 1))
                  (repeat (Decimal.Dec 1 0) k)
                = Some (repeat (Decimal.Dec 1 (-28)) k)).
    { clear E. induction k as [|k IH]; cbn [repeat Ladder.map_raising];
        [reflexivity|].
      replace (Decimal.div (Decimal.Dec 1 0) (Decimal.Dec (10 ^ 27) 1))
        with (Some (Decimal.Dec 1 (-28))) by (vm_compute; reflexivity).
      rewrite IH. reflexivity. }
    rewrite R. reflexivity. }
  rewrite H. eexists. split; [reflexivity|].
  cbn [Ladder.dca_amounts_pct exact_sum fold_right].
  fold (exact_sum (repeat (Decimal.Dec 1 (-28)) k)).
  rewrite exact_sum_repeat.
  assert (E1 : (Decimal.to_Q (Decimal.Dec 1 0) == 1)%Q) by reflexivity.
  assert (E2 : (Decimal.to_Q (Decimal.Dec 1 (-28)) == 1 # 10 ^ 28)%Q) by reflexivity.
  rewrite E1, E2. reflexivity.
Qed.

Lemma lopsided_weights (k : nat) :
  Z.of_nat k = 20000000000000000000 ->
  List.length (dca_spreads (lopsided_config k))
  = List.length (dca_amounts (lopsided_config k))
  /\ (forall a, In a (dca_amounts (lopsided_config k)) -> 0 < Decimal.coef a)
  /\ exists self,
       Ladder.__init__ (lopsided_config k) = Some self
       /\ ~ (Qabs (exact_sum (Ladder.dca_amounts_pct self) - 1) <= tolerance)%Q.
Proof.
  intros Hk. split; [|split].
  - unfold lopsided_config, lopsided_amounts.
    cbn [dca_spreads dca_amounts List.length].
    now rewrite !repeat_length.
  - unfold lopsided_config, lopsided_amounts. cbn [dca_amounts].
    intros a [<-|Hin]; [reflexivity|].
    apply repeat_spec in Hin. subst a. reflexivity.
  - destruct (init_lopsided (lopsided_config k) k eq_refl) as [self [E Hs]].
    exists self. split; [exact E|].
    rewrite Hs, Hk. intros H. apply Qabs_Qle_condition in H. destruct H as [_ H].
    vm_compute in H. now apply H.
Qed.

(** Without a bound on the number of levels the weights need not add
    up to 1 within [1e-9]: a ladder of [1E+28] followed by [2E+19]
    amounts of [1] has weights that add up to [1 + 2e-9]. *)
Lemma ladder_weights_need_bounded_length :
  List.length (dca_spreads (lopsided_config beyond_capacity))
  = List.length (dca_amounts (lopsided_config beyond_capacity))
  /\ (forall a, In a (dca_amounts (lopsided_config beyond_capacity)) ->
        0 < Decimal.coef a)
  /\ exists self,
       Ladder.__init__ (lopsided_config beyond_capacity) = Some self
       /\ ~ (Qabs (exact_sum (Ladder.dca_amounts_pct self) - 1) <= tolerance)%Q.
Proof.
  apply (lopsided_weights beyond_capacity).
  unfold beyond_capacity. apply Z2Nat.id. discriminate.
Qed.

(* ================================================================== *)
(** * Further properties of the strategy script                        *)
(* ================================================================== *)

(** ** The quote asset of a trading pair *)

Lemma last_segment_dash_free (s : string) :
  forall acc, dash_free acc -> dash_free (Strategy.last_segment s acc).
Proof.
  induction s as [|c r IH]; intros acc Hacc; simpl; [exact Hacc|].
  destruct (Ascii.eqb_spec c "-"%char) as [->|Hne].
  - apply IH. exact I.
  - apply IH. clear IH. induction acc as [|a acc IHa]; simpl in *.
    + split; [exact Hne|exact I].
    + destruct Hacc as [Ha Hr]. split; [exact Ha|now apply IHa].
Qed.

Lemma last_segment_app (a b : string) :
  forall acc,
    Strategy.last_segment (a ++ b) acc
    = Strategy.last_segment b (Strategy.last_segment a acc).
Proof.
  induction a as [|c r IH]; intros acc; simpl; [reflexivity|].
  destruct (Ascii.eqb c "-"%char); apply IH.
Qed.

Lemma append_assoc (a b c : string) : ((a ++ b) ++ c = a ++ (b ++ c))%string.
Proof. induction a as [|x a IH]; simpl; [reflexivity|now rewrite IH]. Qed.

Lemma append_empty_r (a : string) : (a ++ "" = a)%string.
Proof. induction a as [|x a IH]; simpl; [reflexivity|now rewrite IH]. Qed.

Lemma last_segment_of_dash_free (s : string) :
  dash_free s -> forall acc, Strategy.last_segment s acc = (acc ++ s)%string.
Proof.
  induction s as [|c r IH]; intros Hs acc; simpl.
  - now rewrite append_empty_r.
  - destruct Hs as [Hc Hr].
    destruct (Ascii.eqb_spec c "-"%char) as [E|_]; [contradiction|].
    rewrite (IH Hr), append_assoc. reflexivity.
Qed.

(** X1.  [get_quote_asset]: the result never contains ['-']; a pair written
    [base-quote] with a quote without ['-'] gives back [quote],
    whatever [base] is; a string without ['-'] is returned as it is. *)
Theorem get_quote_asset_last_segment :
  (forall trading_pair, dash_free (Strategy.get_quote_asset trading_pair))
  /\ (forall base quote,
        dash_free quote ->
        Strategy.get_quote_asset (base ++ "-" ++ quote) = quote)
  /\ (forall s, dash_free s -> Strategy.get_quote_asset s = s).
Proof.
  unfold Strategy.get_quote_asset. split; [|split].
  - intros p. apply last_segment_dash_free. exact I.
  - intros base quote Hq. rewrite last_segment_app. simpl.
    now rewrite last_segment_of_dash_free.
  - intros s Hs. now rewrite last_segment_of_dash_free.
Qed.

Lemma get_quote_asset_last_segment_witness :
  Strategy.get_quote_asset "1000PEPE-BTC-USDT" = "USDT"%string
  /\ Strategy.get_quote_asset "USDT" = "USDT"%string.
Proof.
  destruct get_quote_asset_last_segment as [_ [H2 H3]]. split.
  - apply (H2 "1000PEPE-BTC"%string "USDT"%string).
    repeat split; discriminate.
  - apply H3. repeat split; discriminate.
Defined.

(** ** The PnL by quote asset *)

Lemma pnl_by_quote_asset_rounds (self : Strategy.t) :
  Strategy._get_pnl_by_quote_asset self
  = fold_left (pnl_round (Strategy.global_pnl_quote self))
      (Strategy.controllers self) [].
Proof.
  unfold Strategy._get_pnl_by_quote_asset.
  generalize (@nil (string * Decimal.t)) as d.
  induction (Strategy.controllers self) as [|[k c] l IH]; intros d;
    [reflexivity|].
  cbn [fold_left]. rewrite <- IH. f_equal.
  unfold pnl_round, quote_of. cbn [fst snd].
  destruct (PyDict.getitem_default Decimal.zero d
              (Strategy.get_quote_asset (Ctrl.trading_pair c))); reflexivity.
Qed.

Section DictKeys.

Context {V : Type}.

Lemma get_None_keys (d : PyDict.t V) (k : string) :
  PyDict.get d k = None <-> ~ In k (PyDict.keys d).
Proof.
  induction d as [|[k0 v0] d IH]; simpl.
  - tauto.
  - destruct (String.eqb_spec k0 k) as [->|Hne].
    + split; [discriminate|]. intros H. elim H. now left.
    + rewrite IH. tauto.
Qed.

Lemma keys_set (d : PyDict.t V) (k : string) (v : V) :
  PyDict.keys (PyDict.set d k v)
  = if existsb (String.eqb k) (PyDict.keys d) then PyDict.keys d
    else PyDict.keys d ++ [k].
Proof.
  induction d as [|[k0 v0] d IH]; simpl; [reflexivity|].
  rewrite (String.eqb_sym k k0).
  destruct (String.eqb_spec k0 k) as [->|Hne]; simpl; [reflexivity|].
  rewrite IH. destruct (existsb (String.eqb k) (PyDict.keys d)); reflexivity.
Qed.

Lemma existsb_eqb_In (k : string) (l : list string) :
  existsb (String.eqb k) l = true <-> In k l.
Proof.
  rewrite existsb_exists. split.
  - intros [x [Hin E]]. apply String.eqb_eq in E. now subst.
  - intros H. exists k. split; [exact H|apply String.eqb_refl].
Qed.

Lemma keys_set_In (d : PyDict.t V) (k : string) (v : V) (q : string) :
  In q (PyDict.keys (PyDict.set d k v)) <-> In q (PyDict.keys d) \/ q = k.
Proof.
  rewrite keys_set.
  destruct (existsb (String.eqb k) (PyDict.keys d)) eqn:E.
  - apply existsb_eqb_In in E. split; [tauto|]. intros [H| ->]; assumption.
  - rewrite in_app_iff. simpl. split; [intros [H|[H|[]]]|intros [H|H]]; auto.
Qed.

Lemma keys_set_NoDup (d : PyDict.t V) (k : string) (v : V) :
  NoDup (PyDict.keys d) -> NoDup (PyDict.keys (PyDict.set d k v)).
Proof.
  intros H. rewrite keys_set.
  destruct (existsb (String.eqb k) (PyDict.keys d)) eqn:E; [exact H|].
  assert (Hk : ~ In k (PyDict.keys d)).
  { intros Hin. apply existsb_eqb_In in Hin. congruence. }
  clear E. induction (PyDict.keys d) as [|a l IH]; simpl.
  - constructor; [intros []|constructor].
  - inversion H; subst. constructor.
    + rewrite in_app_iff. simpl. intros [Hin|[->|[]]]; [contradiction|].
      apply Hk. now left.
    + apply IH; [assumption|]. intros Hin. apply Hk. now right.
Qed.

Lemma getitem_default_keys (dflt : V) (d : PyDict.t V) (k : string) (q : string) :
  In q (PyDict.keys (snd (PyDict.getitem_default dflt d k)))
  <-> In q (PyDict.keys d) \/ q = k.
Proof.
  unfold PyDict.getitem_default. destruct (PyDict.get d k) eqn:E; simpl.
  - split; [tauto|]. intros [H| ->]; [exact H|].
    destruct (In_dec string_dec k (PyDict.keys d)) as [Hin|Hnot]; [exact Hin|].
    apply get_None_keys in Hnot. congruence.
  - apply keys_set_In.
Qed.

Lemma getitem_default_NoDup (dflt : V) (d : PyDict.t V) (k : string) :
  NoDup (PyDict.keys d) ->
  NoDup (PyDict.keys (snd (PyDict.getitem_default dflt d k))).
Proof.
  unfold PyDict.getitem_default. destruct (PyDict.get d k); simpl;
    [tauto|apply keys_set_NoDup].
Qed.

Lemma get_or_set (dflt : V) (d : PyDict.t V) (k q : string) (v : V) :
  PyDict.get_or dflt (PyDict.set d k v) q
  = if String.eqb k q then v else PyDict.get_or dflt d q.
Proof.
  unfold PyDict.get_or. rewrite get_set.
  destruct (String.eqb k q); reflexivity.
Qed.

End DictKeys.

Lemma pnl_round_value (pnl : string -> Decimal.t) (d : PyDict.t Decimal.t)
    (item : string * Ctrl.t) (q : string) :
  PyDict.get_or Decimal.zero (pnl_round pnl d item) q
  = if String.eqb (quote_of item) q
    then (PyDict.get_or Decimal.zero d q + pnl (fst item))%dec
    else PyDict.get_or Decimal.zero d q.
Proof.
  unfold pnl_round. rewrite get_or_set, getitem_default_value, getitem_default_keeps.
  destruct (String.eqb_spec (quote_of item) q) as [->|]; reflexivity.
Qed.

Lemma pnl_rounds_value (pnl : string -> Decimal.t) (q : string)
    (l : list (string * Ctrl.t)) :
  forall d,
    PyDict.get_or Decimal.zero (fold_left (pnl_round pnl) l d) q
    = fold_left Decimal.add
        (map (fun item => pnl (fst item))
             (filter (fun item => String.eqb (quote_of item) q) l))
        (PyDict.get_or Decimal.zero d q).
Proof.
  induction l as [|item l IH]; intros d; [reflexivity|].
  cbn [fold_left filter]. rewrite IH, pnl_round_value.
  destruct (String.eqb (quote_of item) q); reflexivity.
Qed.

Lemma pnl_rounds_keys (pnl : string -> Decimal.t) (l : list (string * Ctrl.t)) :
  forall d,
    NoDup (PyDict.keys d) ->
    NoDup (PyDict.keys (fold_left (pnl_round pnl) l d))
    /\ forall q, In q (PyDict.keys (fold_left (pnl_round pnl) l d))
                 <-> In q (PyDict.keys d) \/ In q (map quote_of l).
Proof.
  induction l as [|item l IH]; intros d Hd.
  - simpl. split; [exact Hd|]. intros q. tauto.
  - cbn [fold_left map].
    assert (Hd' : NoDup (PyDict.keys (pnl_round pnl d item))).
    { unfold pnl_round. apply keys_set_NoDup, getitem_default_NoDup, Hd. }
    destruct (IH _ Hd') as [Hn Hk]. split; [exact Hn|].
    intros q. rewrite Hk. unfold pnl_round at 1.
    rewrite keys_set_In, getitem_default_keys. simpl. intuition.
Qed.

(** X2.  [_get_pnl_by_quote_asset]: the keys of the result are the quote
    assets of the controllers, each once; the value under a quote asset
    is the PnL of the controllers that trade it, added one by one in
    the order of the controllers, starting from [Decimal()]. *)
Theorem pnl_by_quote_asset_sums :
  forall self : Strategy.t,
    let pnl_dict := Strategy._get_pnl_by_quote_asset self in
    NoDup (PyDict.keys pnl_dict)
    /\ (forall q, In q (PyDict.keys pnl_dict)
                  <-> In q (map quote_of (Strategy.controllers self)))
    /\ (forall q,
          PyDict.get_or Decimal.zero pnl_dict q
          = fold_left Decimal.add
              (map (fun item => Strategy.global_pnl_quote self (fst item))
                   (filter (fun item => String.eqb (quote_of item) q)
                           (Strategy.controllers self)))
              Decimal.zero).
Proof.
  intros self pnl_dict. unfold pnl_dict. rewrite pnl_by_quote_asset_rounds.
  destruct (pnl_rounds_keys (Strategy.global_pnl_quote self)
              (Strategy.controllers self) [] (NoDup_nil _)) as [Hn Hk].
  split; [exact Hn|]. split.
  - intros q. rewrite Hk. simpl. tauto.
  - intros q. apply pnl_rounds_value.
Qed.

(** ** The valuation and the initial snapshot *)

Lemma current_portfolio_value_rounds (self : Strategy.t) :
  Strategy._get_current_portfolio_value self
  = fst (fold_left valuation_round (Strategy.initial_portfolio_value self)
           ([], Strategy._get_pnl_by_quote_asset self)).
Proof.
  unfold Strategy._get_current_portfolio_value. f_equal.
  generalize (@nil (string * Decimal.t), Strategy._get_pnl_by_quote_asset self) as acc.
  induction (Strategy.initial_portfolio_value self) as [|[a v] l IH]; intros acc;
    [reflexivity|].
  cbn [fold_left]. rewrite <- IH. f_equal.
  destruct acc as [cur pnl]. unfold valuation_round. cbn [fst snd].
  destruct (PyDict.getitem_default Decimal.zero pnl a); reflexivity.
Qed.

Lemma valuation_rounds_keep (l : list (string * Decimal.t)) :
  forall acc,
    (fst acc = [] \/ exists w, fst acc = [("asset"%string, w)]) ->
    (fst (fold_left valuation_round l acc) = []
     \/ exists w, fst (fold_left valuation_round l acc) = [("asset"%string, w)])
    /\ forall q,
         PyDict.get_or Decimal.zero (snd (fold_left valuation_round l acc)) q
         = PyDict.get_or Decimal.zero (snd acc) q.
Proof.
  induction l as [|item l IH]; intros [cur pnl] Hacc;
    [split; [exact Hacc|reflexivity]|].
  cbn [fold_left]. cbn [fst snd] in Hacc.
  destruct (IH (valuation_round (cur, pnl) item)) as [H1 H2].
  - right. unfold valuation_round. cbn [fst snd].
    destruct Hacc as [->|[w ->]]; eexists; reflexivity.
  - split; [exact H1|]. intros q. rewrite H2. unfold valuation_round. cbn [fst snd].
    apply getitem_default_keeps.
Qed.

(** X3.  [_get_current_portfolio_value]: an empty initial snapshot gives an
    empty valuation; otherwise the valuation has the single key
    ["asset"], and its value is the value of the last item of the
    initial snapshot plus the PnL by quote asset under that item's
    key. *)
Theorem current_portfolio_value_last_item :
  forall self : Strategy.t,
    (Strategy.initial_portfolio_value self = [] ->
     Strategy._get_current_portfolio_value self = [])
    /\ (forall items asset value,
          Strategy.initial_portfolio_value self = items ++ [(asset, value)] ->
          Strategy._get_current_portfolio_value self
          = [("asset"%string,
              (value + PyDict.get_or Decimal.zero
                         (Strategy._get_pnl_by_quote_asset self) asset)%dec)]).
Proof.
  intros self. rewrite current_portfolio_value_rounds. split.
  - intros ->. reflexivity.
  - intros items asset value ->. rewrite fold_left_app. cbn [fold_left].
    destruct (valuation_rounds_keep items
                ([], Strategy._get_pnl_by_quote_asset self))
      as [Hcur Hpnl]; [now left|].
    unfold valuation_round at 1. cbn [fst snd].
    rewrite getitem_default_value, Hpnl. cbn [snd].
    destruct Hcur as [->|[w ->]]; reflexivity.
Qed.

Lemma current_portfolio_value_last_item_witness :
  let self :=
    Strategy.mk 30%float
      [("USDT"%string, Decimal.Dec 1000 0); ("BTC"%string, Decimal.Dec 2 0)]
      [] None false 0%float
      [("c1"%string, Ctrl.mk RUNNING false "ETH-BTC")]
      [] (fun _ => Decimal.Dec 1 (-1)) [] in
  Strategy._get_current_portfolio_value self
  = [("asset"%string, Decimal.Dec 21 (-1))].
Proof.
  intros self.
  rewrite (proj2 (current_portfolio_value_last_item self)
             [("USDT"%string, Decimal.Dec 1000 0)] "BTC"%string (Decimal.Dec 2 0)
             eq_refl).
  reflexivity.
Defined.





(** ** The running maximum *)

Local Open Scope Q_scope.

(** The order of decimals is the order of the numbers they denote. *)
Lemma ltb_to_Q (x y : Decimal.t) :
  Decimal.ltb x y = true <-> Decimal.to_Q x < Decimal.to_Q y.
Proof.
  unfold Decimal.ltb, Decimal.compare.
  set (e := Z.min (Decimal.expo x) (Decimal.expo y)).
  rewrite (to_Q_align x e), (to_Q_align y e) by (unfold e; lia).
  rewrite (Qmult_lt_r _ _ _ (pow10_pos e)), <- Zlt_Qlt.
  destruct (Z.compare_spec (Decimal.align x e) (Decimal.align y e)) as [Hc|Hc|Hc];
    split; intros Hg; try discriminate; try reflexivity; lia.
Qed.

Local Open Scope Z_scope.

Lemma later_max_bounds (value current : Decimal.t) :
  (Decimal.to_Q value <= Decimal.to_Q (later_max value current))%Q
  /\ (Decimal.to_Q current <= Decimal.to_Q (later_max value current))%Q.
Proof.
  unfold later_max. destruct (Decimal.ltb value current) eqn:E.
  - apply ltb_to_Q in E. split; lra.
  - split; [lra|].
    destruct (Qlt_le_dec (Decimal.to_Q value) (Decimal.to_Q current)) as [H|H];
      [|exact H].
    apply ltb_to_Q in H. congruence.
Qed.

Lemma set_in_place {V : Type} (pre : PyDict.t V) (k : string) (v w : V)
    (post : PyDict.t V) :
  ~ In k (PyDict.keys pre) ->
  PyDict.set (pre ++ (k, v) :: post) k w = pre ++ (k, w) :: post.
Proof.
  induction pre as [|[k0 v0] pre IH]; simpl; intros Hnot.
  - now rewrite String.eqb_refl.
  - destruct (String.eqb_spec k0 k) as [->|_]; [elim Hnot; now left|].
    rewrite IH; [reflexivity|]. intros H. apply Hnot. now right.
Qed.

Lemma max_rounds (cur0 : PyDict.t Decimal.t) (l : list (string * Decimal.t)) :
  forall (pre : list (string * Decimal.t)) (cur : PyDict.t Decimal.t),
    NoDup (PyDict.keys (pre ++ l)) ->
    (forall q, PyDict.get_or Decimal.zero cur q = PyDict.get_or Decimal.zero cur0 q) ->
    snd (fold_left max_round l (cur, pre ++ l))
    = pre ++ map (fun item : string * Decimal.t =>
                    (fst item,
                     later_max (snd item) (PyDict.get_or Decimal.zero cur0 (fst item))))
                 l.
Proof.
  induction l as [|[k v] l IH]; intros pre cur Hnd Hcur; [reflexivity|].
  cbn [fold_left map fst snd]. unfold max_round at 2. cbn [fst snd].
  rewrite getitem_default_value, Hcur.
  assert (Hpre : ~ In k (PyDict.keys pre)).
  { unfold PyDict.keys in *. rewrite map_app in Hnd. simpl in Hnd.
    apply NoDup_remove_2 in Hnd. rewrite in_app_iff in Hnd. tauto. }
  assert (Hnd' : forall w, NoDup (PyDict.keys ((pre ++ [(k, w)]) ++ l))).
  { intros w. unfold PyDict.keys in *. rewrite <- app_assoc. simpl.
    rewrite map_app in *. exact Hnd. }
  assert (Hcur' : forall q,
             PyDict.get_or Decimal.zero
               (snd (PyDict.getitem_default Decimal.zero cur k)) q
             = PyDict.get_or Decimal.zero cur0 q).
  { intros q. now rewrite getitem_default_keeps. }
  set (c := PyDict.get_or Decimal.zero cur0 k).
  unfold later_max at 1. fold c.
  destruct (Decimal.ltb v c).
  - rewrite set_in_place by exact Hpre.
    pose proof (IH (pre ++ [(k, c)]) _ (Hnd' c) Hcur') as R.
    rewrite <- !app_assoc in R. exact R.
  - pose proof (IH (pre ++ [(k, v)]) _ (Hnd' v) Hcur') as R.
    rewrite <- !app_assoc in R. exact R.
Qed.

Lemma update_max_portfolio_value_rounds (self : Strategy.t) :
  Strategy.max_portfolio_value (Strategy.update_max_portfolio_value self)
  = match Strategy.max_portfolio_value self with
    | [] => Strategy._get_current_portfolio_value self
    | items =>
        snd (fold_left max_round items
               (Strategy._get_current_portfolio_value self, items))
    end.
Proof.
  unfold Strategy.update_max_portfolio_value.
  destruct (Strategy.max_portfolio_value self) as [|i l] eqn:E; [reflexivity|].
  cbn [Strategy.max_portfolio_value Strategy.with_max_portfolio_value]. f_equal.
  generalize (Strategy._get_current_portfolio_value self, i :: l) as acc.
  generalize (i :: l) as items.
  induction items as [|[k v] items IH]; intros acc; [reflexivity|].
  cbn [fold_left]. rewrite <- IH. f_equal. destruct acc as [cur maxd].
  unfold max_round. cbn [fst snd].
  destruct (PyDict.getitem_default Decimal.zero cur k) as [c cur'].
  cbn [fst snd]. destruct (Decimal.ltb v c); reflexivity.
Qed.

(** X5.  [update_max_portfolio_value], on a running maximum that holds
    each of its keys once, as a dict does: an empty running maximum
    becomes the current valuation.  Otherwise the keys stay as they are and, for
    every key, the new value is the old value or the current value
    under that key (0 when the valuation has none), whichever is
    larger: the running maximum never decreases and is never below the
    current valuation.  The controllers and the calls are not
    touched. *)
Theorem running_max_never_decreases :
  forall self : Strategy.t,
    let current := Strategy._get_current_portfolio_value self in
    let self' := Strategy.update_max_portfolio_value self in
    NoDup (PyDict.keys (Strategy.max_portfolio_value self)) ->
    (Strategy.max_portfolio_value self = [] ->
     Strategy.max_portfolio_value self' = current)
    /\ PyDict.keys (Strategy.max_portfolio_value self')
       = match Strategy.max_portfolio_value self with
         | [] => PyDict.keys current
         | items => PyDict.keys items
         end
    /\ (forall k v,
          In (k, v) (Strategy.max_portfolio_value self) ->
          exists v',
            In (k, v') (Strategy.max_portfolio_value self')
            /\ (Decimal.to_Q v <= Decimal.to_Q v')%Q
            /\ (Decimal.to_Q (PyDict.get_or Decimal.zero current k)
                <= Decimal.to_Q v')%Q
            /\ (v' = v \/ v' = PyDict.get_or Decimal.zero current k))
    /\ same_but_max self' self.
Proof.
  intros self current self' Hnd. unfold self'.
  rewrite update_max_portfolio_value_rounds. fold current.
  destruct (update_max_portfolio_value_same self) as [Hsame _].
  destruct (Strategy.max_portfolio_value self) as [|i l] eqn:E.
  - split; [reflexivity|]. split; [reflexivity|]. split; [intros k v []|exact Hsame].
  - pose proof (max_rounds current (i :: l) [] current Hnd (fun q => eq_refl))
      as R.
    cbn [app] in R. cbv beta iota zeta. rewrite R. split; [discriminate|]. split; [|split; [|exact Hsame]].
    + unfold PyDict.keys. rewrite map_map. reflexivity.
    + intros k v Hin.
      exists (later_max v (PyDict.get_or Decimal.zero current k)).
      destruct (later_max_bounds v (PyDict.get_or Decimal.zero current k))
        as [B1 B2].
      split; [|split; [exact B1|split; [exact B2|]]].
      * apply in_map_iff. exists (k, v). split; [reflexivity|exact Hin].
      * unfold later_max. destruct (Decimal.ltb v _); [now right|now left].
Qed.

(** A maximum of 1000 against a valuation of 1005, and against one of
    970. *)
Lemma running_max_never_decreases_witness :
  Strategy.max_portfolio_value
    (Strategy.update_max_portfolio_value
       (one_controller (Decimal.Dec 5 0) [("asset"%string, Decimal.Dec 1000 0)]
          (Ctrl.mk RUNNING false "BTC-USDT") []))
  = [("asset"%string, Decimal.Dec 1005 0)]
  /\ exists v',
       In ("asset"%string, v')
          (Strategy.max_portfolio_value
             (Strategy.update_max_portfolio_value
                (one_controller (Decimal.Dec (-30) 0)
                   [("asset"%string, Decimal.Dec 1000 0)]
                   (Ctrl.mk RUNNING false "BTC-USDT") [])))
       /\ (Decimal.to_Q (Decimal.Dec 1000 0) <= Decimal.to_Q v')%Q.
Proof.
  split; [reflexivity|].
  destruct (running_max_never_decreases
              (one_controller (Decimal.Dec (-30) 0)
                 [("asset"%string, Decimal.Dec 1000 0)]
                 (Ctrl.mk RUNNING false "BTC-USDT") []))
    as [_ [_ [H _]]].
  - simpl. repeat constructor. intros [].
  - destruct (H "asset"%string (Decimal.Dec 1000 0) (or_introl eq_refl))
      as [v' [Hin [Hle _]]].
    exists v'. split; [exact Hin|exact Hle].
Defined.

(** ** The drawdown check below the limit and with a NaN limit *)

Lemma only_max_differs_refl (a : Strategy.t) : only_max_differs a a.
Proof. repeat split. Qed.

Lemma only_max_differs_trans (a b c : Strategy.t) :
  only_max_differs a b -> only_max_differs b c -> only_max_differs a c.
Proof.
  unfold only_max_differs, same_but_max.
  intros [[? [? [? ?]]] [? [? [? [? ?]]]]] [[? [? [? ?]]] [? [? [? [? ?]]]]].
  repeat split; congruence.
Qed.

Lemma with_max_only_max_differs (a : Strategy.t) (m : PyDict.t Decimal.t) :
  only_max_differs (Strategy.with_max_portfolio_value a m) a.
Proof. repeat split. Qed.

Lemma update_max_only_max_differs (self : Strategy.t) :
  only_max_differs (Strategy.update_max_portfolio_value self) self.
Proof.
  unfold Strategy.update_max_portfolio_value.
  destruct (Strategy.max_portfolio_value self); apply with_max_only_max_differs.
Qed.

(** The loop of [control_portfolio_loss] ends in one of three ways. *)
Lemma portfolio_loss_loop_outcome (items : list (string * Decimal.t)) :
  forall self,
    match Strategy.portfolio_loss_loop self items with
    | None => Prim2SF (Strategy.max_portfolio_loss self) = S754_nan /\ items <> []
    | Some r =>
        (items <> [] -> Prim2SF (Strategy.max_portfolio_loss self) <> S754_nan)
        /\ exists self',
             only_max_differs self' self
             /\ (forall q,
                   PyDict.get_or Decimal.zero (Strategy.max_portfolio_value self') q
                   = PyDict.get_or Decimal.zero (Strategy.max_portfolio_value self) q)
             /\ ((r = self'
                  /\ forall asset value,
                       In (asset, value) items ->
                       Decimal.ge_float
                         (PyDict.get_or Decimal.zero
                            (Strategy.max_portfolio_value self) asset - value)%dec
                         (Strategy.max_portfolio_loss self) = Some false)
                 \/ (r = Strategy.stop_by_portfolio_loss self'
                     /\ exists asset value,
                          In (asset, value) items
                          /\ Decimal.ge_float
                               (PyDict.get_or Decimal.zero
                                  (Strategy.max_portfolio_value self) asset - value)%dec
                               (Strategy.max_portfolio_loss self) = Some true))
    end.
Proof.
  induction items as [|[a v] items IH]; intros self.
  - simpl. split; [intros H; now elim H|].
    exists self. split; [apply only_max_differs_refl|]. split; [reflexivity|].
    left. split; [reflexivity|intros ? ? []].
  - cbn [Strategy.portfolio_loss_loop].
    pose proof (getitem_default_value Decimal.zero
                  (Strategy.max_portfolio_value self) a) as Hv.
    pose proof (getitem_default_keeps Decimal.zero
                  (Strategy.max_portfolio_value self) a) as Hk.
    destruct (PyDict.getitem_default Decimal.zero
                (Strategy.max_portfolio_value self) a) as [m maxd].
    cbn [fst snd] in Hv, Hk. subst m.
    set (self1 := Strategy.with_max_portfolio_value self maxd).
    change (Strategy.max_portfolio_loss self1) with (Strategy.max_portfolio_loss self).
    destruct (Decimal.ge_float
                (PyDict.get_or Decimal.zero (Strategy.max_portfolio_value self) a - v)%dec
                (Strategy.max_portfolio_loss self)) as [[|]|] eqn:E.
    + split.
      { intros _. unfold Decimal.ge_float in E.
        destruct (Prim2SF (Strategy.max_portfolio_loss self)); discriminate. }
      exists self1. split; [apply with_max_only_max_differs|].
      split; [exact Hk|]. right. split; [reflexivity|].
      exists a, v. split; [now left|exact E].
    + assert (Hnan : Prim2SF (Strategy.max_portfolio_loss self) <> S754_nan).
      { unfold Decimal.ge_float in E.
        destruct (Prim2SF (Strategy.max_portfolio_loss self)); discriminate. }
      specialize (IH self1).
      destruct (Strategy.portfolio_loss_loop self1 items) as [r|].
      * split; [intros _; exact Hnan|].
        destruct IH as [_ [s' [Hs [Hg Hcase]]]].
        exists s'. split.
        { eapply only_max_differs_trans; [exact Hs|].
          apply with_max_only_max_differs. }
        split; [intros q; rewrite Hg; apply Hk|].
        destruct Hcase as [[-> Hall]|[-> [a' [v' [Hin Hge]]]]].
        -- left. split; [reflexivity|].
           intros a' v' [Heq|Hin].
           ++ injection Heq as <- <-. exact E.
           ++ specialize (Hall a' v' Hin). cbn in Hall.
              rewrite Hk in Hall. exact Hall.
        -- right. split; [reflexivity|]. exists a', v'.
           split; [now right|]. cbn in Hge. rewrite Hk in Hge. exact Hge.
      * destruct IH as [Hn _]. now elim Hnan.
    + split; [|discriminate].
      unfold Decimal.ge_float in E.
      destruct (Prim2SF (Strategy.max_portfolio_loss self)); try discriminate.
      reflexivity.
Qed.

Lemma control_portfolio_loss_loop (self : Strategy.t) :
  Strategy.control_portfolio_loss self
  = Strategy.portfolio_loss_loop (Strategy.update_max_portfolio_value self)
      (Strategy._get_current_portfolio_value self).
Proof.
  unfold Strategy.control_portfolio_loss.
  now rewrite (proj2 (update_max_portfolio_value_same self)).
Qed.

(** X6.  [control_portfolio_loss] below the limit: when no item of the
    current valuation is as far as [max_portfolio_loss] below the
    running maximum, the check returns without stopping a controller
    and without a call; only the running maximum may have changed. *)
Theorem no_stop_below_loss_limit :
  forall self : Strategy.t,
    let tracked := Strategy.update_max_portfolio_value self in
    (forall asset value,
        In (asset, value) (Strategy._get_current_portfolio_value self) ->
        Decimal.ge_float
          (PyDict.get_or Decimal.zero (Strategy.max_portfolio_value tracked) asset
           - value)%dec
          (Strategy.max_portfolio_loss self) = Some false) ->
    exists self',
      Strategy.control_portfolio_loss self = Some self'
      /\ Strategy.controllers self' = Strategy.controllers self
      /\ Strategy.calls self' = Strategy.calls self
      /\ Strategy.cashing_out self' = Strategy.cashing_out self
      /\ forall q,
           PyDict.get_or Decimal.zero (Strategy.max_portfolio_value self') q
           = PyDict.get_or Decimal.zero (Strategy.max_portfolio_value tracked) q.
Proof.
  intros self tracked Hall. rewrite control_portfolio_loss_loop. fold tracked.
  pose proof (update_max_only_max_differs self) as Ht. fold tracked in Ht.
  assert (Hloss : Strategy.max_portfolio_loss tracked = Strategy.max_portfolio_loss self)
    by apply Ht.
  pose proof (portfolio_loss_loop_outcome
                (Strategy._get_current_portfolio_value self) tracked) as Hout.
  destruct (Strategy.portfolio_loss_loop tracked
              (Strategy._get_current_portfolio_value self)) as [r|].
  - destruct Hout as [_ [s' [Hs [Hg [[-> _]|[_ [a [v [Hin Hge]]]]]]]]].
    + exists s'. split; [reflexivity|].
      pose proof (only_max_differs_trans _ _ _ Hs Ht) as [[_ [Hc [_ Hk]]] [_ [_ [Hcash _]]]].
      repeat split; assumption.
    + rewrite Hloss, (Hall a v Hin) in Hge. discriminate.
  - destruct Hout as [Hnan Hne]. exfalso.
    destruct (Strategy._get_current_portfolio_value self) as [|[a v] l];
      [now elim Hne|].
    specialize (Hall a v (or_introl eq_refl)).
    unfold Decimal.ge_float in Hall. rewrite <- Hloss, Hnan in Hall. discriminate.
Qed.

Lemma no_stop_below_loss_limit_witness :
  let self := one_controller (Decimal.Dec (-2999) (-2))
                [("asset"%string, Decimal.Dec 1000 0)]
                (Ctrl.mk RUNNING false "BTC-USDT") [] in
  exists self',
    Strategy.control_portfolio_loss self = Some self'
    /\ Strategy.controllers self' = Strategy.controllers self
    /\ Strategy.calls self' = [].
Proof.
  intros self.
  destruct (no_stop_below_loss_limit self) as [self' [E [Hc [Hk _]]]].
  - intros asset value [H|[]]. injection H as <- <-. vm_compute. reflexivity.
  - exists self'. split; [exact E|]. split; [exact Hc|exact Hk].
Defined.


(** ** After a stop by portfolio loss *)

(** X8.  [stop_by_portfolio_loss]: afterwards no controller is RUNNING, and
    running it again stops nothing and makes no call. *)
Theorem stop_by_portfolio_loss_once :
  forall self : Strategy.t,
    let stopped := Strategy.stop_by_portfolio_loss self in
    (forall controller_id controller,
        In (controller_id, controller) (Strategy.controllers stopped) ->
        Ctrl.status controller <> RUNNING)
    /\ Strategy.controllers (Strategy.stop_by_portfolio_loss stopped)
       = Strategy.controllers stopped
    /\ Strategy.calls (Strategy.stop_by_portfolio_loss stopped)
       = Strategy.calls stopped.
Proof.
  intros self stopped.
  assert (Hnone : forall cid c, In (cid, c) (Strategy.controllers stopped) ->
                                Ctrl.status c <> RUNNING).
  { intros cid c. unfold stopped, Strategy.stop_by_portfolio_loss.
    rewrite for_controllers_controllers. rewrite in_map_iff.
    intros [[k c0] [E _]]. cbn [fst snd] in E.
    destruct (RunnableStatus_eqb (Ctrl.status c0) RUNNING) eqn:Es;
      cbn [fst Strategy.stop_with_executors] in E; injection E as _ <-.
    - discriminate.
    - intros H. apply status_eqb_RUNNING in H. congruence. }
  split; [exact Hnone|].
  assert (Hround : forall item, In item (Strategy.controllers stopped) ->
             (if RunnableStatus_eqb (Ctrl.status (snd item)) RUNNING
              then Strategy.stop_with_executors stopped (fst item) (snd item)
              else (snd item, [])) = (snd item, [])).
  { intros [k c] Hin. cbn [fst snd].
    destruct (RunnableStatus_eqb (Ctrl.status c) RUNNING) eqn:Es; [|reflexivity].
    apply status_eqb_RUNNING in Es. elim (Hnone k c Hin Es). }
  clearbody stopped. unfold Strategy.stop_by_portfolio_loss.
  rewrite for_controllers_controllers, for_controllers_calls. split.
  - rewrite <- (map_id (Strategy.controllers stopped)) at 2.
    apply map_ext_in. intros [k c] Hin. rewrite (Hround _ Hin). reflexivity.
  - rewrite <- (app_nil_r (Strategy.calls stopped)) at 2. f_equal.
    induction (Strategy.controllers stopped) as [|item l IH]; [reflexivity|].
    cbn [flat_map]. rewrite (Hround item (or_introl eq_refl)). cbn [snd app].
    apply IH.
    + intros cid c Hin. apply (Hnone cid c). now right.
    + intros it Hin. apply Hround. now right.
Qed.

(** ** The scheduled cash-out *)

Lemma for_controllers_fields (self : Strategy.t)
    (body : string -> Ctrl.t -> Ctrl.t * list Call) :
  Strategy.max_portfolio_loss (Strategy.for_controllers self body)
  = Strategy.max_portfolio_loss self
  /\ Strategy.cash_out_time (Strategy.for_controllers self body)
     = Strategy.cash_out_time self
  /\ Strategy.cashing_out (Strategy.for_controllers self body)
     = Strategy.cashing_out self
  /\ Strategy.current_timestamp (Strategy.for_controllers self body)
     = Strategy.current_timestamp self
  /\ Strategy.executors_info (Strategy.for_controllers self body)
     = Strategy.executors_info self
  /\ Strategy.max_portfolio_value (Strategy.for_controllers self body)
     = Strategy.max_portfolio_value self.
Proof. repeat split. Qed.

(** X9.  [evaluate_cash_out_time]: when the cash-out is not due (no cash-out
    time, a cash-out time of 0, a time not yet reached, or cashing out
    already) nothing changes.  When it is due, [cashing_out] is set,
    every RUNNING controller is stopped and no other controller is
    touched, every call made is the [stop()] of a controller, so no
    stop request goes to an executor, and no controller is RUNNING
    afterwards.  Evaluating again changes nothing. *)
Theorem scheduled_cash_out_stops_controllers_only :
  forall self : Strategy.t,
    let ready := Strategy.evaluate_cash_out_time self in
    (cash_out_due self = false -> ready = self)
    /\ (cash_out_due self = true ->
        Strategy.cashing_out ready = true
        /\ Strategy.controllers ready
           = map (fun item : string * Ctrl.t =>
                    (fst item,
                     if RunnableStatus_eqb (Ctrl.status (snd item)) RUNNING
                     then Ctrl.stop (snd item) else snd item))
                 (Strategy.controllers self)
        /\ (exists made,
              Strategy.calls ready = Strategy.calls self ++ made
              /\ Forall is_controller_stop made)
        /\ (forall controller_id controller,
              In (controller_id, controller) (Strategy.controllers ready) ->
              Ctrl.status controller <> RUNNING))
    /\ Strategy.evaluate_cash_out_time ready = ready.
Proof.
  intros self ready.
  assert (Hidle : cash_out_due self = false -> ready = self).
  { unfold ready, cash_out_due, Strategy.evaluate_cash_out_time.
    destruct (Strategy.cash_out_time self) as [t|]; [|reflexivity].
    now intros ->. }
  assert (Hdue : cash_out_due self = true ->
            ready = Strategy.with_cashing_out
                      (Strategy.for_controllers self
                         (fun controller_id controller =>
                            if RunnableStatus_eqb (Ctrl.status controller) RUNNING
                            then (Ctrl.stop controller, [controller_stop controller_id])
                            else (controller, [])))
                      true).
  { unfold ready, cash_out_due, Strategy.evaluate_cash_out_time.
    destruct (Strategy.cash_out_time self) as [t|]; [|discriminate].
    now intros ->. }
  assert (Hagain : forall s, Strategy.cashing_out s = true ->
                             Strategy.evaluate_cash_out_time s = s)
    by apply evaluate_cash_out_time_cashing.
  split; [exact Hidle|]. split.
  - intros Hd. rewrite (Hdue Hd).
    cbn [Strategy.cashing_out Strategy.with_cashing_out Strategy.controllers
         Strategy.calls].
    rewrite for_controllers_controllers, for_controllers_calls.
    assert (Hmap : map (fun item : string * Ctrl.t =>
                          (fst item,
                           fst (if RunnableStatus_eqb (Ctrl.status (snd item)) RUNNING
                                then (Ctrl.stop (snd item), [controller_stop (fst item)])
                                else (snd item, []))))
                       (Strategy.controllers self)
                   = map (fun item : string * Ctrl.t =>
                            (fst item,
                             if RunnableStatus_eqb (Ctrl.status (snd item)) RUNNING
                             then Ctrl.stop (snd item) else snd item))
                         (Strategy.controllers self)).
    { apply map_ext. intros [k c]. cbn [fst snd].
      destruct (RunnableStatus_eqb (Ctrl.status c) RUNNING); reflexivity. }
    rewrite Hmap. split; [reflexivity|]. split; [reflexivity|]. split.
    + eexists. split; [reflexivity|].
      apply Forall_forall. intros call Hin. apply in_flat_map in Hin.
      destruct Hin as [[k c] [_ Hc]]. cbn [fst snd] in Hc.
      destruct (RunnableStatus_eqb (Ctrl.status c) RUNNING); cbn [snd] in Hc.
      * destruct Hc as [<-|[]]. now exists k.
      * destruct Hc.
    + intros cid c Hin. apply in_map_iff in Hin.
      destruct Hin as [[k c0] [E _]]. cbn [fst snd] in E.
      destruct (RunnableStatus_eqb (Ctrl.status c0) RUNNING) eqn:Es;
        injection E as _ <-.
      * discriminate.
      * intros H. apply status_eqb_RUNNING in H. congruence.
  - destruct (cash_out_due self) eqn:Hd.
    + apply Hagain. now rewrite (Hdue eq_refl).
    + rewrite (Hidle eq_refl).
      fold ready. exact (Hidle eq_refl).
Qed.

Lemma scheduled_cash_out_stops_controllers_only_witness :
  let x := Executor.mk "e1" "c1" 0%float RUNNING true false in
  let self :=
    Strategy.mk 30%float [] [] (Some 100%float) false 200%float
      [("c1"%string, Ctrl.mk RUNNING false "BTC-USDT");
       ("c2"%string, Ctrl.mk NOT_STARTED false "ETH-USDT")]
      [("c1"%string, [x])] (fun _ => Decimal.zero) [] in
  Strategy.cashing_out (Strategy.evaluate_cash_out_time self) = true
  /\ Strategy.controllers (Strategy.evaluate_cash_out_time self)
     = [("c1"%string, Ctrl.mk TERMINATED false "BTC-USDT");
        ("c2"%string, Ctrl.mk NOT_STARTED false "ETH-USDT")]
  /\ Strategy.evaluate_cash_out_time
       (Strategy.with_cashing_out self true)
     = Strategy.with_cashing_out self true.
Proof.
  intros x self.
  destruct (scheduled_cash_out_stops_controllers_only self) as [_ [Hd _]].
  destruct (Hd eq_refl) as [H1 [H2 _]].
  destruct (scheduled_cash_out_stops_controllers_only
              (Strategy.with_cashing_out self true)) as [Hi _].
  split; [exact H1|]. split; [rewrite H2; reflexivity|].
  apply Hi. reflexivity.
Defined.

(** ** One tick *)

Lemma stop_by_portfolio_loss_controllers (self : Strategy.t) :
  Strategy.controllers (Strategy.stop_by_portfolio_loss self)
  = stop_running (Strategy.controllers self).
Proof.
  unfold Strategy.stop_by_portfolio_loss. rewrite for_controllers_controllers.
  apply map_ext. intros [k c]. cbn [fst snd].
  destruct (RunnableStatus_eqb (Ctrl.status c) RUNNING); reflexivity.
Qed.

Lemma stop_by_portfolio_loss_calls (self : Strategy.t) :
  exists made,
    Strategy.calls (Strategy.stop_by_portfolio_loss self)
    = Strategy.calls self ++ made
    /\ (forall controller_id, ~ In (controller_start controller_id) made)
    /\ (forall controller_id controller,
          In (controller_id, controller) (Strategy.controllers self) ->
          Ctrl.status controller = RUNNING ->
          In (controller_stop controller_id) made).
Proof.
  unfold Strategy.stop_by_portfolio_loss. rewrite for_controllers_calls.
  eexists. split; [reflexivity|]. split.
  - intros cid Hin. apply in_flat_map in Hin.
    destruct Hin as [[k c] [_ Hc]]. cbn [fst snd] in Hc.
    destruct (RunnableStatus_eqb (Ctrl.status c) RUNNING);
      cbn [snd Strategy.stop_with_executors] in Hc.
    + destruct Hc as [E|[E|[]]]; discriminate.
    + destruct Hc.
  - intros cid c Hin Hst. apply in_flat_map. exists (cid, c).
    split; [exact Hin|]. cbn [fst snd]. rewrite Hst. left. reflexivity.
Qed.

(** The state in which [on_tick] enters [control_cash_out]: the state
    at the start of the tick, but for the running maximum, or that
    state after [stop_by_portfolio_loss]. *)
Lemma on_tick_outcome (self r : Strategy.t) :
  Strategy.on_tick self = Some r ->
  exists before mid,
    only_max_differs before self
    /\ (mid = before \/ mid = Strategy.stop_by_portfolio_loss before)
    /\ r = Strategy.control_cash_out mid.
Proof.
  unfold Strategy.on_tick.
  destruct (negb (PrimFloat.eqb (Strategy.max_portfolio_loss self) 0)).
  - rewrite control_portfolio_loss_loop.
    pose proof (portfolio_loss_loop_outcome
                  (Strategy._get_current_portfolio_value self)
                  (Strategy.update_max_portfolio_value self)) as Hout.
    destruct (Strategy.portfolio_loss_loop _ _) as [mid|]; [|discriminate].
    intros E. injection E as <-.
    destruct Hout as [_ [before [Hb [_ Hcase]]]].
    exists before, mid. split.
    + eapply only_max_differs_trans; [exact Hb|apply update_max_only_max_differs].
    + split; [|reflexivity]. destruct Hcase as [[-> _]|[-> _]]; [now left|now right].
  - intros E. injection E as <-. exists self, self.
    split; [apply only_max_differs_refl|]. split; [now left|reflexivity].
Qed.

Lemma check_executors_status_outcome (self : Strategy.t) :
  Strategy.controllers (Strategy.check_executors_status self)
  = Strategy.controllers self
  /\ Strategy.cashing_out (Strategy.check_executors_status self)
     = Strategy.cashing_out self
  /\ exists made,
       Strategy.calls (Strategy.check_executors_status self)
       = Strategy.calls self ++ [made]
       /\ forall controller_id, made <> controller_start controller_id.
Proof.
  unfold Strategy.check_executors_status.
  destruct (filter_executors _ _); cbn; repeat split;
    eexists; (split; [reflexivity|]); intros cid; discriminate.
Qed.

(** X10.  Cashing out is not left.  On a tick that starts with [cashing_out]
    set, [on_tick] leaves it set, starts no controller, and leaves the
    controllers as they were or, when the draw-down check fired, with
    the RUNNING ones stopped. *)
Theorem cashing_out_is_not_left :
  forall self after : Strategy.t,
    Strategy.cashing_out self = true ->
    Strategy.on_tick self = Some after ->
    Strategy.cashing_out after = true
    /\ (Strategy.controllers after = Strategy.controllers self
        \/ Strategy.controllers after = stop_running (Strategy.controllers self))
    /\ exists made,
         Strategy.calls after = Strategy.calls self ++ made
         /\ forall controller_id, ~ In (controller_start controller_id) made.
Proof.
  intros self after Hcash Htick.
  destruct (on_tick_outcome self after Htick) as [before [mid [Hb [Hmid ->]]]].
  destruct Hb as [[_ [Hc [_ Hk]]] [_ [_ [Hco _]]]].
  assert (Hmc : Strategy.cashing_out mid = true).
  { destruct Hmid as [->| ->]; [congruence|].
    unfold Strategy.stop_by_portfolio_loss.
    rewrite (proj1 (proj2 (proj2 (for_controllers_fields _ _)))). congruence. }
  assert (He : Strategy.evaluate_cash_out_time mid = mid)
    by now apply evaluate_cash_out_time_cashing.
  assert (Hrun : Strategy.control_cash_out mid = Strategy.check_executors_status mid).
  { unfold Strategy.control_cash_out. rewrite He. cbv zeta. now rewrite Hmc. }
  rewrite Hrun.
  destruct (check_executors_status_outcome mid) as [Hcs [Hcc [m [Hcalls Hm]]]].
  rewrite Hcs, Hcc, Hcalls. split; [exact Hmc|].
  destruct Hmid as [->| ->].
  - split; [left; exact Hc|]. exists [m]. rewrite Hk. split; [reflexivity|].
    intros cid [E|[]]. exact (Hm cid E).
  - split; [right; rewrite stop_by_portfolio_loss_controllers; now rewrite Hc|].
    destruct (stop_by_portfolio_loss_calls before) as [made [E [Hns _]]].
    exists (made ++ [m]). rewrite E, Hk, app_assoc. split; [reflexivity|].
    intros cid Hin. apply in_app_or in Hin. destruct Hin as [Hin|[Hin|[]]].
    + exact (Hns cid Hin).
    + exact (Hm cid Hin).
Qed.

Lemma cashing_out_is_not_left_witness :
  let x := Executor.mk "e1" "c1" 0%float RUNNING true false in
  let self :=
    Strategy.mk 0%float [] [] None true 200%float
      [("c1"%string, Ctrl.mk TERMINATED false "BTC-USDT")]
      [("c1"%string, [x])] (fun _ => Decimal.zero) [] in
  exists after,
    Strategy.on_tick self = Some after
    /\ Strategy.cashing_out after = true
    /\ forall controller_id,
         ~ In (controller_start controller_id) (Strategy.calls after).
Proof.
  intros x self. eexists. split; [reflexivity|].
  destruct (cashing_out_is_not_left self _ eq_refl eq_refl)
    as [H1 [_ [made [E Hn]]]].
  split; [exact H1|]. intros cid. rewrite E. exact (Hn cid).
Defined.

(** X11.  A stop by portfolio loss does not outlast the tick.  On a tick on
    which the strategy is not cashing out, the cash-out is not due, and
    the draw-down check fires, [on_tick] stops every RUNNING controller
    and then, in [check_manual_cash_out], restarts each of them whose
    kill switch is cleared: such a controller is RUNNING again at the
    end of the tick, after a [stop()] and a [start()].  A RUNNING
    controller whose kill switch is set ends the tick stopped. *)
Theorem portfolio_loss_stop_is_undone_by_manual_check :
  forall (self : Strategy.t) (asset : string) (value : Decimal.t),
    PrimFloat.eqb (Strategy.max_portfolio_loss self) 0 = false ->
    Strategy.cashing_out self = false ->
    cash_out_due self = false ->
    In (asset, value) (Strategy._get_current_portfolio_value self) ->
    Decimal.ge_float
      (PyDict.get_or Decimal.zero
         (Strategy.max_portfolio_value (Strategy.update_max_portfolio_value self))
         asset - value)%dec
      (Strategy.max_portfolio_loss self) = Some true ->
    exists after made,
      Strategy.on_tick self = Some after
      /\ Strategy.calls after = Strategy.calls self ++ made
      /\ forall controller_id controller,
           In (controller_id, controller) (Strategy.controllers self) ->
           Ctrl.status controller = RUNNING ->
           In (controller_stop controller_id) made
           /\ (Ctrl.manual_kill_switch controller = false ->
               In (controller_id, controller) (Strategy.controllers after)
               /\ In (controller_start controller_id) made)
           /\ (Ctrl.manual_kill_switch controller = true ->
               In (controller_id, Ctrl.stop controller)
                  (Strategy.controllers after)).
Proof.
  intros self asset value Hloss Hcash Hdue Hin Hge.
  pose proof (update_max_only_max_differs self) as Hu.
  assert (Hl : Strategy.max_portfolio_loss (Strategy.update_max_portfolio_value self)
               = Strategy.max_portfolio_loss self) by apply Hu.
  pose proof (portfolio_loss_loop_outcome
                (Strategy._get_current_portfolio_value self)
                (Strategy.update_max_portfolio_value self)) as Hout.
  unfold Strategy.on_tick. rewrite Hloss. cbn [negb].
  rewrite control_portfolio_loss_loop.
  destruct (Strategy.portfolio_loss_loop _ _) as [mid|].
  2:{ destruct Hout as [Hnan _]. rewrite Hl in Hnan.
      unfold Decimal.ge_float in Hge. rewrite Hnan in Hge. discriminate. }
  destruct Hout as [_ [before [Hb [_ Hcase]]]].
  destruct Hcase as [[_ Hall]|[-> _]].
  { specialize (Hall asset value Hin). rewrite Hl in Hall. congruence. }
  pose proof (only_max_differs_trans _ _ _ Hb Hu) as Hbs.
  destruct Hbs as [[_ [Hc [_ Hk]]] [_ [Hct [Hco [Hnow _]]]]].
  set (mid := Strategy.stop_by_portfolio_loss before).
  assert (Hmf := for_controllers_fields before (loss_round before)).
  assert (He : Strategy.evaluate_cash_out_time mid = mid).
  { unfold Strategy.evaluate_cash_out_time.
    change (Strategy.cash_out_time mid) with (Strategy.cash_out_time before).
    change (Strategy.cashing_out mid) with (Strategy.cashing_out before).
    change (Strategy.current_timestamp mid) with (Strategy.current_timestamp before).
    rewrite Hct, Hco, Hnow. unfold cash_out_due in Hdue.
    destruct (Strategy.cash_out_time self); [|reflexivity]. now rewrite Hdue. }
  assert (Hrun : Strategy.control_cash_out mid
                 = Strategy.for_controllers mid (manual_round mid)).
  { unfold Strategy.control_cash_out. rewrite He. cbv zeta.
    change (Strategy.cashing_out mid) with (Strategy.cashing_out before).
    rewrite Hco, Hcash. apply check_manual_cash_out_rounds. }
  destruct (stop_by_portfolio_loss_calls before) as [made1 [Ecalls [_ Hstops]]].
  fold mid in Ecalls.
  eexists. eexists. split; [reflexivity|].
  rewrite Hrun, for_controllers_controllers, for_controllers_calls.
  rewrite Ecalls, Hk, <- app_assoc. split; [reflexivity|].
  intros cid c Hinc Hst.
  assert (Hmidc : In (cid, Ctrl.stop c) (Strategy.controllers mid)).
  { unfold mid. rewrite stop_by_portfolio_loss_controllers, Hc.
    apply in_map_iff. exists (cid, c). split; [|exact Hinc].
    cbn [fst snd]. now rewrite Hst. }
  split; [apply in_or_app; left; apply (Hstops cid c); [now rewrite Hc|exact Hst]|].
  split.
  - intros Hkill.
    assert (Hr : manual_round mid cid (Ctrl.stop c)
                 = (c, [controller_start cid])).
    { unfold manual_round. destruct c as [s b p]. cbn in *. subst. reflexivity. }
    split.
    + apply in_map_iff. exists (cid, Ctrl.stop c). split; [|exact Hmidc].
      cbn [fst snd]. now rewrite Hr.
    + apply in_or_app. right. apply in_flat_map. exists (cid, Ctrl.stop c).
      split; [exact Hmidc|]. cbn [fst snd]. rewrite Hr. now left.
  - intros Hkill.
    assert (Hr : manual_round mid cid (Ctrl.stop c) = (Ctrl.stop c, [])).
    { unfold manual_round. destruct c as [s b p]. cbn in *. subst. reflexivity. }
    apply in_map_iff. exists (cid, Ctrl.stop c). split; [|exact Hmidc].
    cbn [fst snd]. now rewrite Hr.
Qed.

Lemma portfolio_loss_stop_is_undone_by_manual_check_witness :
  let self :=
    Strategy.mk 30%float
      [("USDT"%string, Decimal.of_Z 1000)] [("asset"%string, Decimal.of_Z 1100)]
      None false 200%float
      [("c1"%string, Ctrl.mk RUNNING false "BTC-USDT")]
      [] (fun _ => Decimal.zero) [] in
  exists after,
    Strategy.on_tick self = Some after
    /\ In ("c1"%string, Ctrl.mk RUNNING false "BTC-USDT")
          (Strategy.controllers after)
    /\ In (controller_stop "c1") (Strategy.calls after)
    /\ In (controller_start "c1") (Strategy.calls after).
Proof.
  intros self.
  destruct (portfolio_loss_stop_is_undone_by_manual_check self
              "asset" (Decimal.of_Z 1000 + Decimal.zero)%dec
              eq_refl eq_refl eq_refl (or_introl eq_refl) eq_refl)
    as [after [made [Htick [Hcalls Hall]]]].
  exists after. split; [exact Htick|].
  destruct (Hall "c1"%string (Ctrl.mk RUNNING false "BTC-USDT")
              (or_introl eq_refl) eq_refl) as [Hstop [Hstart _]].
  destruct (Hstart eq_refl) as [Hc Hs].
  rewrite Hcalls. repeat split; [exact Hc| |]; apply in_or_app; now right.
Defined.

(** ** The manual kill switch *)

(** X12.  [check_manual_cash_out] settles the controllers: afterwards no
    controller whose kill switch is set is RUNNING and no controller
    whose kill switch is cleared is TERMINATED, and a second pass
    changes no controller and makes no call. *)
Theorem manual_cash_out_settles :
  forall self : Strategy.t,
    let checked := Strategy.check_manual_cash_out self in
    (forall controller_id controller,
        In (controller_id, controller) (Strategy.controllers checked) ->
        (Ctrl.manual_kill_switch controller = true ->
         Ctrl.status controller <> RUNNING)
        /\ (Ctrl.manual_kill_switch controller = false ->
            Ctrl.status controller <> TERMINATED))
    /\ Strategy.controllers (Strategy.check_manual_cash_out checked)
       = Strategy.controllers checked
    /\ Strategy.calls (Strategy.check_manual_cash_out checked)
       = Strategy.calls checked.
Proof.
  intros self checked.
  assert (Hset : forall cid c, In (cid, c) (Strategy.controllers checked) ->
            (Ctrl.manual_kill_switch c = true -> Ctrl.status c <> RUNNING)
            /\ (Ctrl.manual_kill_switch c = false -> Ctrl.status c <> TERMINATED)).
  { intros cid c. unfold checked.
    rewrite check_manual_cash_out_rounds, for_controllers_controllers.
    rewrite in_map_iff. intros [[k [s b p]] [E _]].
    unfold manual_round in E. cbn in E.
    destruct b, s; cbn in E; injection E as _ <-; cbn;
      split; intros; discriminate. }
  split; [exact Hset|].
  assert (Hround : forall item, In item (Strategy.controllers checked) ->
            manual_round checked (fst item) (snd item) = (snd item, [])).
  { intros [k c] Hin. destruct (Hset k c Hin) as [H1 H2].
    unfold manual_round. cbn [fst snd].
    destruct c as [s b p]. cbn in *.
    destruct b, s; cbn; try reflexivity;
      solve [elim (H1 eq_refl eq_refl) | elim (H2 eq_refl eq_refl)]. }
  clearbody checked.
  rewrite check_manual_cash_out_rounds, for_controllers_controllers,
    for_controllers_calls. split.
  - rewrite <- (map_id (Strategy.controllers checked)) at 2.
    apply map_ext_in. intros [k c] Hin. rewrite (Hround _ Hin). reflexivity.
  - rewrite <- (app_nil_r (Strategy.calls checked)) at 2. f_equal.
    induction (Strategy.controllers checked) as [|item l IH]; [reflexivity|].
    cbn [flat_map]. rewrite (Hround item (or_introl eq_refl)). cbn [snd app].
    apply IH.
    + intros cid c Hin. apply (Hset cid c). now right.
    + intros it Hin. apply Hround. now right.
Qed.

(* ================================================================== *)
(** * Further properties of the controllers                            *)
(* ================================================================== *)

(** ** The prices and the quote amounts of a plan *)

Local Open Scope Q_scope.










Local Open Scope Z_scope.







(** ** Construction of the weights *)





(** ** Refreshing without a refresh time *)

(** X16.  [executors_to_refresh] with [executor_refresh_time] left at its
    default [None]: the call raises exactly when some executor is
    active and not trading ([None * 1000]), and returns no action
    otherwise. *)
Theorem executors_to_refresh_without_refresh_time :
  forall (now : float) (self : Ladder.Controller)
         (executors_info : list ExecutorInfo),
    executor_refresh_time (Ladder.config self) = None ->
    (Ladder.executors_to_refresh now self executors_info = None
     <-> exists x, In x executors_info
                   /\ Executor.is_active x = true
                   /\ Executor.is_trading x = false)
    /\ (forall actions,
          Ladder.executors_to_refresh now self executors_info = Some actions ->
          actions = []).
Proof.
  intros now self executors_info E.
  rewrite (executors_to_refresh_unconfigured now self executors_info E).
  destruct (existsb (fun x => negb (Executor.is_trading x) && Executor.is_active x)
              executors_info) eqn:Ex.
  - split; [|discriminate]. split; [intros _|reflexivity].
    apply existsb_exists in Ex. destruct Ex as [x [Hin Hx]].
    exists x. apply andb_true_iff in Hx. destruct Hx as [Ht Ha].
    apply negb_true_iff in Ht. auto.
  - split; [|intros actions H; now injection H as <-].
    split; [discriminate|]. intros [x [Hin [Ha Ht]]]. exfalso.
    assert (Hex : existsb (fun x => negb (Executor.is_trading x) && Executor.is_active x)
                    executors_info = true).
    { apply existsb_exists. exists x. split; [exact Hin|]. now rewrite Ha, Ht. }
    congruence.
Qed.

Lemma executors_to_refresh_without_refresh_time_witness :
  let self := Ladder.mkController example_config [] [] in
  Ladder.executors_to_refresh 0%float self
    [Executor.mk "e1" "c1" 0%float RUNNING true false] = None
  /\ Ladder.executors_to_refresh 0%float self
       [Executor.mk "e1" "c1" 0%float RUNNING true true] = Some [].
Proof.
  intros self.
  destruct (executors_to_refresh_without_refresh_time 0%float self
              [Executor.mk "e1" "c1" 0%float RUNNING true false] eq_refl)
    as [H1 _].
  split.
  - apply H1. eexists. split; [now left|]. split; reflexivity.
  - reflexivity.
Defined.

(** ** The look-back of each series *)

Lemma duration_known (interval : string) :
  PyDict.get Indicator.interval_durations interval = None
  <-> ~ known_interval interval.
Proof. apply get_None_keys. Qed.

Lemma duration_positive (interval : string) (d : Z) :
  PyDict.get Indicator.interval_durations interval = Some d -> 0 < d.
Proof.
  intros E.
  assert (K : known_interval interval).
  { destruct (in_dec string_dec interval (PyDict.keys Indicator.interval_durations))
      as [H|H]; [exact H|].
    apply duration_known in H. congruence. }
  destruct (known_interval_duration interval K) as [d' [E' Hd]]. congruence.
Qed.

(** X17.  [get_candle_max_records], in [bollinger_macd_dca] and in
    [macd_mt_dca]: the call raises exactly when one of the two
    intervals is not a key of [interval_durations]; otherwise it
    returns two counts, and the count of each series is at least the
    period of its own indicator ([slow + signal] bars for a MACD,
    [bb_length] bars for the Bollinger bands). *)
Theorem lookback_covers_each_indicator :
  (forall cfg : BollingerMacdDCA.Config,
      (BollingerMacdDCA.get_candle_max_records cfg = None
       <-> ~ (known_interval (BollingerMacdDCA.macd_interval cfg)
              /\ known_interval (BollingerMacdDCA.bb_interval cfg)))
      /\ (forall records,
            BollingerMacdDCA.get_candle_max_records cfg = Some records ->
            exists records_macd records_bb,
              records = [records_macd; records_bb]
              /\ BollingerMacdDCA.macd_slow cfg + BollingerMacdDCA.macd_signal cfg
                 <= records_macd
              /\ BollingerMacdDCA.bb_length cfg <= records_bb))
  /\
  (forall cfg : MacdMTDCA.Config,
      (MacdMTDCA.get_candle_max_records cfg = None
       <-> ~ (known_interval (MacdMTDCA.macd_interval_1 cfg)
              /\ known_interval (MacdMTDCA.macd_interval_2 cfg)))
      /\ (forall records,
            MacdMTDCA.get_candle_max_records cfg = Some records ->
            exists records_1 records_2,
              records = [records_1; records_2]
              /\ MacdMTDCA.macd_slow_1 cfg + MacdMTDCA.macd_signal_1 cfg
                 <= records_1
              /\ MacdMTDCA.macd_slow_2 cfg + MacdMTDCA.macd_signal_2 cfg
                 <= records_2)).
Proof.
  split; intros cfg.
  - unfold BollingerMacdDCA.get_candle_max_records.
    pose proof (duration_known (BollingerMacdDCA.macd_interval cfg)) as K1.
    pose proof (duration_known (BollingerMacdDCA.bb_interval cfg)) as K2.
    pose proof (duration_positive (BollingerMacdDCA.macd_interval cfg)) as P1.
    pose proof (duration_positive (BollingerMacdDCA.bb_interval cfg)) as P2.
    destruct (PyDict.get _ (BollingerMacdDCA.macd_interval cfg)) as [d1|];
      destruct (PyDict.get _ (BollingerMacdDCA.bb_interval cfg)) as [d2|].
    + split.
      * split; [discriminate|]. intros H. exfalso. apply H. split.
        -- destruct (in_dec string_dec (BollingerMacdDCA.macd_interval cfg)
                       (PyDict.keys Indicator.interval_durations)) as [I|I];
             [exact I|]. apply K1 in I. discriminate.
        -- destruct (in_dec string_dec (BollingerMacdDCA.bb_interval cfg)
                       (PyDict.keys Indicator.interval_durations)) as [I|I];
             [exact I|]. apply K2 in I. discriminate.
      * intros records E. cbv zeta in E. injection E as <-.
        eexists. eexists. split; [reflexivity|]. split.
        -- apply lookback_covers_period. now apply P1.
        -- rewrite Z.max_comm. apply lookback_covers_period. now apply P2.
    + split; [|discriminate]. split; [|reflexivity]. intros _ [_ H].
      now apply (proj1 K2).
    + split; [|discriminate]. split; [|reflexivity]. intros _ [H _].
      now apply (proj1 K1).
    + split; [|discriminate]. split; [|reflexivity]. intros _ [H _].
      now apply (proj1 K1).
  - unfold MacdMTDCA.get_candle_max_records.
    pose proof (duration_known (MacdMTDCA.macd_interval_1 cfg)) as K1.
    pose proof (duration_known (MacdMTDCA.macd_interval_2 cfg)) as K2.
    pose proof (duration_positive (MacdMTDCA.macd_interval_1 cfg)) as P1.
    pose proof (duration_positive (MacdMTDCA.macd_interval_2 cfg)) as P2.
    destruct (PyDict.get _ (MacdMTDCA.macd_interval_1 cfg)) as [d1|];
      destruct (PyDict.get _ (MacdMTDCA.macd_interval_2 cfg)) as [d2|].
    + split.
      * split; [discriminate|]. intros H. exfalso. apply H. split.
        -- destruct (in_dec string_dec (MacdMTDCA.macd_interval_1 cfg)
                       (PyDict.keys Indicator.interval_durations)) as [I|I];
             [exact I|]. apply K1 in I. discriminate.
        -- destruct (in_dec string_dec (MacdMTDCA.macd_interval_2 cfg)
                       (PyDict.keys Indicator.interval_durations)) as [I|I];
             [exact I|]. apply K2 in I. discriminate.
      * intros records E. cbv zeta in E. injection E as <-.
        eexists. eexists. split; [reflexivity|]. split.
        -- apply lookback_covers_period. now apply P1.
        -- rewrite Z.max_comm. apply lookback_covers_period. now apply P2.
    + split; [|discriminate]. split; [|reflexivity]. intros _ [_ H].
      now apply (proj1 K2).
    + split; [|discriminate]. split; [|reflexivity]. intros _ [H _].
      now apply (proj1 K1).
    + split; [|discriminate]. split; [|reflexivity]. intros _ [H _].
      now apply (proj1 K1).
Qed.

(** ** The MACD rule *)

Lemma macd_signal_rows (trend_following : bool) (rows : list (float * float)) :
  Indicator.macd_signal trend_following rows = map (macd_row trend_following) rows.
Proof.
  unfold Indicator.macd_signal, Frame.constant_column.
  rewrite (loc_assign_map
             (fun r : float * float =>
                if trend_following then PrimFloat.ltb 0 (fst r)
                else PrimFloat.ltb 0 (fst r) && PrimFloat.ltb (snd r) 0)
             (fun _ => 0) 1).
  rewrite (loc_assign_map
             (fun r : float * float =>
                if trend_following then PrimFloat.ltb (fst r) 0
                else PrimFloat.ltb (fst r) 0 && PrimFloat.ltb 0 (snd r))
             (fun r : float * float =>
                if (if trend_following then PrimFloat.ltb 0 (fst r)
                    else PrimFloat.ltb 0 (fst r) && PrimFloat.ltb (snd r) 0)
                then 1 else 0) (-1)).
  reflexivity.
Qed.

Lemma ltb_asym (a b : float) :
  PrimFloat.ltb a b = true -> PrimFloat.ltb b a = false.
Proof.
  intros H. destruct (PrimFloat.ltb b a) eqn:E; [|reflexivity].
  pose proof (ltb_trans a b a H E) as C.
  rewrite ltb_spec in C. unfold SFltb in C.
  destruct (Prim2SF a) as [s|s| |s m e]; try destruct s; cbn in C;
    try discriminate C.
  - rewrite Z.compare_refl, Pos.compare_cont_refl in C. discriminate C.
  - rewrite Z.compare_refl, Pos.compare_cont_refl in C. discriminate C.
Qed.

(** X18.  The MACD rule of [bollinger_macd_dca] and [macd_mt_dca]: a bar with
    histogram [h] and MACD line [m] gets the signal 1 exactly when its
    long condition holds and -1 exactly when its short condition holds
    ([h > 0] and [h < 0] for a trend-following series; [h > 0 and
    m < 0] and [h < 0 and m > 0] otherwise), and 0 in every other case,
    a NaN included.  The two conditions never hold together, so the
    order of the two assignments does not matter here. *)
Theorem macd_signal_rule :
  forall (trend_following : bool) (rows : list (float * float)) (i : nat)
         (h m : float),
    nth_error rows i = Some (h, m) ->
    let long_condition :=
      if trend_following then PrimFloat.ltb 0 h
      else PrimFloat.ltb 0 h && PrimFloat.ltb m 0 in
    let short_condition :=
      if trend_following then PrimFloat.ltb h 0
      else PrimFloat.ltb h 0 && PrimFloat.ltb 0 m in
    let signal := nth_error (Indicator.macd_signal trend_following rows) i in
    (signal = Some 1 <-> long_condition = true)
    /\ (signal = Some (-1) <-> short_condition = true)
    /\ (signal = Some 0 <-> long_condition = false /\ short_condition = false)
    /\ (long_condition = true -> short_condition = false).
Proof.
  intros tf rows i h m Hrow long_condition short_condition signal.
  assert (Hex : long_condition = true -> short_condition = false).
  { unfold long_condition, short_condition. destruct tf.
    - apply ltb_asym.
    - intros H. apply andb_true_iff in H. destruct H as [H _].
      now rewrite (ltb_asym _ _ H). }
  assert (Hs : signal = Some (if short_condition then -1
                              else if long_condition then 1 else 0)).
  { unfold signal. rewrite macd_signal_rows, nth_error_map, Hrow. reflexivity. }
  rewrite Hs. clearbody long_condition short_condition. clear Hs signal.
  destruct long_condition, short_condition;
    try (specialize (Hex eq_refl); discriminate Hex);
    repeat split; try discriminate; try reflexivity;
    try (intros [? ?]; discriminate); try (intros; discriminate).
Qed.

Lemma macd_signal_rule_witness :
  nth_error (Indicator.macd_signal false
               [(1%float, (-2)%float); (nan, 1%float)]) 0 = Some 1
  /\ nth_error (Indicator.macd_signal false
                  [(1%float, (-2)%float); (nan, 1%float)]) 1 = Some 0.
Proof.
  split.
  - apply (macd_signal_rule false [(1%float, (-2)%float); (nan, 1%float)] 0
             1%float (-2)%float eq_refl). reflexivity.
  - apply (macd_signal_rule false [(1%float, (-2)%float); (nan, 1%float)] 1
             nan 1%float eq_refl). split; reflexivity.
Defined.

(** ** The backward join on a sorted secondary frame *)

Lemma asof_backward_none (right : list (Z * Z)) (t : Z) :
  StronglySorted (fun a b => fst a <= fst b) right ->
  (Frame.asof_backward right t None = None
   <-> forall x, In x right -> t < fst x).
Proof.
  intros Hs. split.
  - intros E x Hin.
    destruct (Z_lt_le_dec t (fst x)) as [H|H]; [exact H|].
    destruct (asof_backward_latest right t Hs None x Hin H) as [t' [v [E' _]]].
    congruence.
  - intros Hall. destruct (Frame.asof_backward right t None) as [v|] eqn:E;
      [|reflexivity].
    destruct (asof_backward_not_later right t None v E) as [C|[t' [Hin Hle]]];
      [discriminate|].
    specialize (Hall _ Hin). simpl in Hall. lia.
Qed.

(** X19.  [merge_asof] with [direction='backward'] on a secondary frame
    sorted by time: row [i] of the merged frame is row [i] of the
    primary frame with the signal of the latest secondary row at or
    before it; nothing is attached exactly when every secondary row is
    later than the primary row. *)
Theorem merge_asof_attaches_latest :
  forall (left right : list (Z * Z)) (i : nat) (t s1 : Z),
    StronglySorted (fun a b => fst a <= fst b) right ->
    nth_error left i = Some (t, s1) ->
    exists attached,
      nth_error (Frame.merge_asof left right) i = Some ((t, s1), attached)
      /\ (attached = None <-> forall x, In x right -> t < fst x)
      /\ (forall x, In x right -> fst x <= t ->
            exists t' s2,
              attached = Some s2 /\ In (t', s2) right /\ fst x <= t' <= t).
Proof.
  intros left right i t s1 Hs Hrow.
  exists (Frame.asof_backward right t None).
  unfold Frame.merge_asof. rewrite nth_error_map, Hrow. cbn [option_map fst].
  split; [reflexivity|]. split.
  - now apply asof_backward_none.
  - intros x Hin Hx. now apply asof_backward_latest.
Qed.

Lemma merge_asof_attaches_latest_witness :
  exists attached,
    nth_error (Frame.merge_asof [(10, 1); (20, 1)] [(5, 1); (15, -1); (30, 0)]) 1
    = Some ((20, 1), attached)
    /\ exists t' s2,
         attached = Some s2 /\ In (t', s2) [(5, 1); (15, -1); (30, 0)]
         /\ 15 <= t' <= 20.
Proof.
  destruct (merge_asof_attaches_latest [(10, 1); (20, 1)]
              [(5, 1); (15, -1); (30, 0)] 1 20 1) as [a [E [_ H]]].
  - repeat constructor; simpl; lia.
  - reflexivity.
  - exists a. split; [exact E|].
    apply (H (15, -1)); [right; now left|simpl; lia].
Defined.

(** ** What the two-series engines emit *)

Lemma combine_map_fst {A B C : Type} (f : B -> C) (l : list (A * B)) :
  combine (map fst l) (map f (map snd l))
  = map (fun r : A * B => (fst r, f (snd r))) l.
Proof. induction l as [|[a b] l IH]; simpl; [reflexivity|now rewrite IH]. Qed.

Lemma fused_signal_last (pre : list (Z * Z)) (t s1 : Z) (right : list (Z * Z)) :
  Frame.iloc_last (Frame.fused_signal (pre ++ [(t, s1)]) right)
  = Some (Frame.agree ((t, s1), Frame.asof_backward right t None)).
Proof.
  unfold Frame.fused_signal, Frame.merge_asof.
  rewrite !map_app. cbn [map fst]. apply iloc_last_app.
Qed.

Lemma agree_cases (t s1 : Z) (attached : option Z) :
  Frame.agree ((t, s1), attached) = 0
  \/ (Frame.agree ((t, s1), attached) = s1 /\ attached = Some s1).
Proof.
  unfold Frame.agree. cbn [fst snd]. destruct attached as [b|]; [|now left].
  destruct (Z.eqb_spec s1 b) as [<-|]; [right; now split|now left].
Qed.

Lemma macd_primary_last (trend_following : bool)
    (pre : list (Z * (float * float))) (t : Z) (h m : float)
    (right : list (Z * Z)) :
  let df := pre ++ [(t, (h, m))] in
  exists s,
    Frame.iloc_last
      (Frame.fused_signal
         (combine (map fst df)
                  (Indicator.macd_signal trend_following (map snd df)))
         right) = Some s
    /\ (s = 1 \/ s = 0 \/ s = -1)
    /\ (s = 1 -> macd_long_condition trend_following (h, m) = true)
    /\ (s = -1 -> macd_short_condition trend_following (h, m) = true)
    /\ ((forall x, In x right -> t < fst x) -> s = 0)
    /\ List.length
         (Frame.fused_signal
            (combine (map fst df)
                     (Indicator.macd_signal trend_following (map snd df)))
            right) = List.length df.
Proof.
  intros df. unfold df.
  rewrite macd_signal_rows, combine_map_fst, map_app. cbn [map fst snd].
  rewrite fused_signal_last.
  eexists. split; [reflexivity|].
  assert (Hlen : List.length
                   (Frame.fused_signal
                      (map (fun r : Z * (float * float) =>
                              (fst r, macd_row trend_following (snd r))) pre
                       ++ [(t, macd_row trend_following (h, m))]) right)
                 = List.length (pre ++ [(t, (h, m))])).
  { unfold Frame.fused_signal, Frame.merge_asof.
    rewrite !length_map, !length_app, length_map. reflexivity. }
  assert (Hempty : (forall x, In x right -> t < fst x) ->
            Frame.agree ((t, macd_row trend_following (h, m)),
                         Frame.asof_backward right t None) = 0).
  { intros Hall.
    destruct (Frame.asof_backward right t None) as [v|] eqn:Ea; [|reflexivity].
    destruct (asof_backward_not_later right t None v Ea) as [C|[t' [Hin Hle]]];
      [discriminate|].
    specialize (Hall _ Hin). simpl in Hall. lia. }
  destruct (agree_cases t (macd_row trend_following (h, m))
              (Frame.asof_backward right t None)) as [E|[E _]]; rewrite E in *.
  - repeat split; try discriminate; auto.
  - unfold macd_row, macd_long_condition, macd_short_condition in *.
    cbn [fst snd] in *.
    destruct (if trend_following then PrimFloat.ltb h 0
              else PrimFloat.ltb h 0 && PrimFloat.ltb 0 m);
      destruct (if trend_following then PrimFloat.ltb 0 h
                else PrimFloat.ltb 0 h && PrimFloat.ltb m 0);
      repeat split; try discriminate; auto.
Qed.

(** X20.  [update_processed_data] of [bollinger_macd_dca] and of
    [macd_mt_dca]: the signal column has one row per bar of the primary
    MACD frame, and the signal emitted is that of the last primary bar.
    It is 1, 0 or -1; it is 1 only if the last primary bar satisfies
    the long condition of its MACD rule and -1 only if it satisfies the
    short condition; it is 0 when every secondary bar is later than the
    last primary bar. *)
Theorem fused_engines_emit_last_primary_bar :
  (forall (cfg : BollingerMacdDCA.Config) (pre : list (Z * (float * float)))
          (t : Z) (h m : float) (df : list (Z * float)),
      let df_macd := pre ++ [(t, (h, m))] in
      exists s,
        BollingerMacdDCA.update_processed_data cfg df_macd df = Some s
        /\ (s = 1 \/ s = 0 \/ s = -1)
        /\ (s = 1 -> macd_long_condition false (h, m) = true)
        /\ (s = -1 -> macd_short_condition false (h, m) = true)
        /\ ((forall row, In row df -> t < fst row) -> s = 0)
        /\ List.length (BollingerMacdDCA.signal_column cfg df_macd df)
           = List.length df_macd)
  /\
  (forall (cfg : MacdMTDCA.Config) (pre : list (Z * (float * float)))
          (t : Z) (h m : float) (df_macd_2 : list (Z * (float * float))),
      let df_macd_1 := pre ++ [(t, (h, m))] in
      let trend_following :=
        String.eqb (MacdMTDCA.macd_signal_type_1 cfg) "trend_following" in
      exists s,
        MacdMTDCA.update_processed_data cfg df_macd_1 df_macd_2 = Some s
        /\ (s = 1 \/ s = 0 \/ s = -1)
        /\ (s = 1 -> macd_long_condition trend_following (h, m) = true)
        /\ (s = -1 -> macd_short_condition trend_following (h, m) = true)
        /\ ((forall row, In row df_macd_2 -> t < fst row) -> s = 0)
        /\ List.length (MacdMTDCA.signal_column cfg df_macd_1 df_macd_2)
           = List.length df_macd_1).
Proof.
  split.
  - intros cfg pre t h m df df_macd.
    unfold BollingerMacdDCA.update_processed_data, BollingerMacdDCA.signal_column.
    destruct (macd_primary_last false pre t h m
                (combine (map fst df)
                   (Indicator.bollinger_signal
                      (BollingerMacdDCA.bb_long_threshold cfg)
                      (BollingerMacdDCA.bb_short_threshold cfg) (map snd df))))
      as [s [E [R [L [S [Z0 Len]]]]]].
    exists s. repeat split; try assumption.
    intros Hall. apply Z0. intros x Hin.
    destruct x as [t' v]. apply in_combine_l in Hin. apply in_map_iff in Hin.
    destruct Hin as [row [E' Hrow]]. cbn [fst]. rewrite <- E'. now apply Hall.
  - intros cfg pre t h m df_macd_2 df_macd_1 trend_following.
    unfold MacdMTDCA.update_processed_data, MacdMTDCA.signal_column.
    destruct (macd_primary_last trend_following pre t h m
                (combine (map fst df_macd_2)
                   (Indicator.macd_signal
                      (String.eqb (MacdMTDCA.macd_signal_type_2 cfg) "trend_following")
                      (map snd df_macd_2))))
      as [s [E [R [L [S [Z0 Len]]]]]].
    exists s. repeat split; try assumption.
    intros Hall. apply Z0. intros x Hin.
    destruct x as [t' v]. apply in_combine_l in Hin. apply in_map_iff in Hin.
    destruct Hin as [row [E' Hrow]]. cbn [fst]. rewrite <- E'. now apply Hall.
Qed.
